(** * The gi layout engine (layout.go): sizes, gathering, allocation, overflow, splits

    A shallow embedding of the layout code of package [gi] and the properties
    its specification states about it.

    Conventions of the embedding.
    - Go's [float64] is read as an exact rational ([Q]): the arithmetic is the
      code's, without rounding.  Equality of two computed numbers is therefore
      [Qeq] ([==]).  The constant [0.1] is [1 # 10].
    - A float64 division by 0.0 does not panic in Go, it gives NaN or an
      infinity.  The rationals have no such value: where the code divides by
      a number that can be 0, the division is [f_div] and its result there is
      [None].  Where the code has made sure of a divisor that is not 0
      (UpdateSplits, the spacing of a justified row) the division is [Qdiv].
    - Go's [int] is a 64-bit signed integer, held in [Z] with the wrap-around
      of each arithmetic operation written out ([wrap64]).
    - A Go struct is a record in a module of the struct's name
      ([LayoutData.Size], [SizePrefs.Max], ...), a method is a function that
      takes the receiver and returns the updated receiver.
    - A run-time panic (slice index out of range, [make] with a negative
      length), a loop that runs out of fuel and a size that is no finite
      number are [None]. *)

From Stdlib Require Import ZArith QArith Lqa Lia List String Bool.
From stdpp Require Import base option list.
Import ListNotations.

Local Open Scope Z_scope.
Local Open Scope Q_scope.

(** ** Numbers *)

Abbreviation float64 := Q (only parsing).

(** [a < b] on float64 *)
Definition f_lt (a b : float64) : bool := negb (Qle_bool b a).

(** [a == b] on float64 *)
Definition f_eq (a b : float64) : bool := Qeq_bool a b.

(** [a / b] on float64: no finite number when [b] is 0 *)
Definition f_div (a b : float64) : option float64 :=
  if f_eq b 0 then None else Some (a / b).

(** math.Max and math.Min *)
Definition math_Max (x y : float64) : float64 := if Qle_bool x y then y else x.
Definition math_Min (x y : float64) : float64 := if Qle_bool x y then x else y.

(** Go's 64-bit [int]: the value an exact result wraps to. *)
Definition wrap64 (z : Z) : Z := ((z + 2 ^ 63) mod 2 ^ 64 - 2 ^ 63)%Z.
Definition int_add (a b : Z) : Z := wrap64 (a + b).
Definition int_mul (a b : Z) : Z := wrap64 (a * b).
(** [a / b] on int truncates toward zero; a division by 0 panics, which the
    caller writes out. *)
Definition int_div (a b : Z) : Z := wrap64 (Z.quot a b).

(** Modelled from the spec: kit.MaxInt and kit.MinInt (package kit, not under
    src/), the larger and the smaller of two ints. *)
Definition MaxInt (a b : Z) : Z := Z.max a b.

(** [int(math.Sqrt(float64(sz)))]: the conversion to int truncates, so the
    result is the integer square root. *)
Definition int_sqrt (sz : Z) : Z := Z.sqrt sz.

(** ** Enumerations *)

Inductive Align : Set :=
| AlignLeft | AlignTop | AlignCenter | AlignMiddle | AlignRight | AlignBottom
| AlignBaseline | AlignJustify | AlignSpaceAround | AlignFlexStart
| AlignFlexEnd | AlignTextTop | AlignTextBottom | AlignSub | AlignSuper.

Definition Align_eqb (a b : Align) : bool :=
  match a, b with
  | AlignLeft, AlignLeft | AlignTop, AlignTop | AlignCenter, AlignCenter
  | AlignMiddle, AlignMiddle | AlignRight, AlignRight
  | AlignBottom, AlignBottom | AlignBaseline, AlignBaseline
  | AlignJustify, AlignJustify | AlignSpaceAround, AlignSpaceAround
  | AlignFlexStart, AlignFlexStart | AlignFlexEnd, AlignFlexEnd
  | AlignTextTop, AlignTextTop | AlignTextBottom, AlignTextBottom
  | AlignSub, AlignSub | AlignSuper, AlignSuper => true
  | _, _ => false
  end.

Definition IsAlignStart (a : Align) : bool :=
  Align_eqb a AlignLeft || Align_eqb a AlignTop
  || Align_eqb a AlignFlexStart || Align_eqb a AlignTextTop.

Definition IsAlignMiddle (a : Align) : bool :=
  Align_eqb a AlignCenter || Align_eqb a AlignMiddle.

Definition IsAlignEnd (a : Align) : bool :=
  Align_eqb a AlignRight || Align_eqb a AlignBottom
  || Align_eqb a AlignFlexEnd || Align_eqb a AlignTextBottom.

Inductive Overflow : Set :=
| OverflowAuto | OverflowScroll | OverflowVisible | OverflowHidden.

Definition Overflow_eqb (a b : Overflow) : bool :=
  match a, b with
  | OverflowAuto, OverflowAuto | OverflowScroll, OverflowScroll
  | OverflowVisible, OverflowVisible | OverflowHidden, OverflowHidden => true
  | _, _ => false
  end.

Inductive Layouts : Set :=
| LayoutRow | LayoutCol | LayoutGrid | LayoutRowFlow | LayoutColFlow
| LayoutStacked.

Inductive RowCol : Set := Row | Col.

Inductive Dims2D : Set := X | Y.

(** ** Vec2D and image.Point *)

(** Modelled from the spec: the type Vec2D is declared in a file of the
    package that is not under src/: a vector of two float64, X and Y. *)
Module Vec2D.
Record t : Type := New { X : float64; Y : float64 }.
End Vec2D.

Module Point.
Record t : Type := New { X : Z; Y : Z }.
End Point.


(** Modelled from the spec: Vec2DZero (not under src/), the zero vector. *)
Definition Vec2DZero : Vec2D.t := Vec2D.New 0 0.

(** Modelled from the spec: Vec2D.Dim (not under src/) reads the component of
    an axis. *)
Definition Dim (a : Vec2D.t) (d : Dims2D) : float64 :=
  match d with X => Vec2D.X a | Y => Vec2D.Y a end.

(** Modelled from the spec: Vec2D.SetDim (not under src/) writes the
    component of an axis. *)
Definition SetDim (a : Vec2D.t) (d : Dims2D) (val : float64) : Vec2D.t :=
  match d with
  | X => Vec2D.New val (Vec2D.Y a)
  | Y => Vec2D.New (Vec2D.X a) val
  end.

(** Modelled from the spec: Vec2D.Add (not under src/), the componentwise
    sum. *)
Definition Add (a b : Vec2D.t) : Vec2D.t :=
  Vec2D.New (Vec2D.X a + Vec2D.X b) (Vec2D.Y a + Vec2D.Y b).

(** Modelled from the spec: Vec2D.Max (not under src/), the componentwise
    maximum, returned as a new vector. *)
Definition Vec2D_Max (a b : Vec2D.t) : Vec2D.t :=
  Vec2D.New (math_Max (Vec2D.X a) (Vec2D.X b)) (math_Max (Vec2D.Y a) (Vec2D.Y b)).

(** Modelled from the spec: Vec2D.SetMax (not under src/) raises the receiver
    to the componentwise maximum ("Need = max(Need, AllocSize)"). *)
Definition SetMax (a b : Vec2D.t) : Vec2D.t := Vec2D_Max a b.

(** Modelled from the spec: Vec2D.SetMaxDim (not under src/), the maximum on
    one axis only. *)
Definition SetMaxDim (a : Vec2D.t) (d : Dims2D) (val : float64) : Vec2D.t :=
  SetDim a d (math_Max (Dim a d) val).

(** Modelled from the spec: Vec2D.SetMinPos (not under src/) lowers the
    receiver to the bound on the axes where the bound is positive.  What
    layout.go itself says of the call is this: the bound is SizePrefs.Max,
    "maximum size -- will not be greater than this -- 0 = no constraint,
    neg = stretch", and the calls are commented "min cannot be > max" and
    "pref cannot be > max".  So a bound of 0 or below leaves the axis as it
    is, and under a positive bound the result is not above the bound; a
    receiver below a positive bound is kept.  The body of the method may do
    something else with a receiver that is not positive (the name can also be
    read as the minimum of the positive ones of the two values); the size
    invariant is therefore proved from the three facts [SetMinPos_free],
    [SetMinPos_bound] and [SetMinPos_kept] alone, which hold on either
    reading. *)
Definition SetMinPos (a b : Vec2D.t) : Vec2D.t :=
  Vec2D.New
    (if f_lt 0 (Vec2D.X b) then math_Min (Vec2D.X a) (Vec2D.X b) else Vec2D.X a)
    (if f_lt 0 (Vec2D.Y b) then math_Min (Vec2D.Y a) (Vec2D.Y b) else Vec2D.Y a).

(** Modelled from the spec: Vec2D.SetAddVal (not under src/) adds a scalar to
    both components. *)
Definition SetAddVal (a : Vec2D.t) (val : float64) : Vec2D.t :=
  Vec2D.New (Vec2D.X a + val) (Vec2D.Y a + val).

(** Modelled from the spec: Vec2D.SetAddDim (not under src/) adds a scalar on
    one axis. *)
Definition SetAddDim (a : Vec2D.t) (d : Dims2D) (val : float64) : Vec2D.t :=
  SetDim a d (Dim a d + val).

(** Modelled from the spec: Vec2D.SubVal (not under src/) subtracts a scalar
    from both components and returns the result. *)
Definition SubVal (a : Vec2D.t) (val : float64) : Vec2D.t :=
  Vec2D.New (Vec2D.X a - val) (Vec2D.Y a - val).

(** Modelled from the spec: Vec2D.SetVal (not under src/) sets both
    components to a scalar. *)
Definition SetVal (a : Vec2D.t) (val : float64) : Vec2D.t := Vec2D.New val val.

(** Modelled from the spec: Vec2D.Set (not under src/) sets both
    components. *)
Definition Vec2D_Set (a : Vec2D.t) (x y : float64) : Vec2D.t := Vec2D.New x y.

(** ** Style values, already resolved to dots *)

Module LayoutStyle.
Record t : Type := New {
    AlignH : Align;
    AlignV : Align;
    PosX : float64;
    PosY : float64;
    Width : float64;
    Height : float64;
    MaxWidth : float64;
    MaxHeight : float64;
    MinWidth : float64;
    MinHeight : float64;
    Overflow : Overflow;
    Columns : Z;
    Row : Z;
    Col : Z;
    RowSpan : Z;
    ColSpan : Z;
    ScrollBarWidth : float64
  }.
End LayoutStyle.

(** Modelled from the spec: Style is declared outside src/.  Here is the part
    of it that layout.go reads, as resolved values: the layout style, the
    value of [Style.BoxSpace()] (the box spacing) and [Style.Font.Size.Dots]. *)
Module Style.
Record t : Type := New {
    Layout : LayoutStyle.t;
    BoxSpace : float64;
    FontSize : float64
  }.
End Style.

Definition AlignDim (ls : LayoutStyle.t) (d : Dims2D) : Align :=
  match d with
  | X => LayoutStyle.AlignH ls
  | Y => LayoutStyle.AlignV ls
  end.


(** ** Layout data *)

Module SizePrefs.
Record t : Type := New { Need : Vec2D.t; Pref : Vec2D.t; Max : Vec2D.t }.
End SizePrefs.

Definition HasMaxStretch (sp : SizePrefs.t) (d : Dims2D) : bool :=
  f_lt (Dim (SizePrefs.Max sp) d) 0.

Definition CanStretchNeed (sp : SizePrefs.t) (d : Dims2D) : bool :=
  f_lt (Dim (SizePrefs.Need sp) d) (Dim (SizePrefs.Pref sp) d).

Module Margins.
Record t : Type := New {
    left : float64; right : float64; top : float64; bottom : float64
  }.
End Margins.

Module LayoutData.
Record t : Type := New {
    Size : SizePrefs.t;
    Margins : Margins.t;
    GridPos : Point.t;
    GridSpan : Point.t;
    AllocSize : Vec2D.t;
    AllocPos : Vec2D.t;
    AllocPosRel : Vec2D.t;
    AllocPosOrig : Vec2D.t
  }.

Definition with_Size (ld : t) (s : SizePrefs.t) : t :=
    New s (Margins ld) (GridPos ld) (GridSpan ld) (AllocSize ld) (AllocPos ld)
        (AllocPosRel ld) (AllocPosOrig ld).
Definition with_AllocSize (ld : t) (v : Vec2D.t) : t :=
    New (Size ld) (Margins ld) (GridPos ld) (GridSpan ld) v (AllocPos ld)
        (AllocPosRel ld) (AllocPosOrig ld).
Definition with_AllocPos (ld : t) (v : Vec2D.t) : t :=
    New (Size ld) (Margins ld) (GridPos ld) (GridSpan ld) (AllocSize ld) v
        (AllocPosRel ld) (AllocPosOrig ld).
Definition with_AllocPosRel (ld : t) (v : Vec2D.t) : t :=
    New (Size ld) (Margins ld) (GridPos ld) (GridSpan ld) (AllocSize ld)
        (AllocPos ld) v (AllocPosOrig ld).
Definition with_AllocPosOrig (ld : t) (v : Vec2D.t) : t :=
    New (Size ld) (Margins ld) (GridPos ld) (GridSpan ld) (AllocSize ld)
        (AllocPos ld) (AllocPosRel ld) v.
End LayoutData.

(** The zero value of LayoutData, what [make([]LayoutData, n)] fills with. *)
Definition LayoutData_zero : LayoutData.t :=
  LayoutData.New (SizePrefs.New Vec2DZero Vec2DZero Vec2DZero)
                 (Margins.New 0 0 0 0) (Point.New 0 0) (Point.New 0 0)
                 Vec2DZero Vec2DZero Vec2DZero Vec2DZero.



(** UpdateSizes: update our sizes based on AllocSize and Max constraints *)
Definition UpdateSizes (ld : LayoutData.t) : LayoutData.t :=
  let sz := LayoutData.Size ld in
  let need := SetMax (SizePrefs.Need sz) (LayoutData.AllocSize ld) in
  let pref := SetMax (SizePrefs.Pref sz) need in
  let need := SetMinPos need (SizePrefs.Max sz) in
  let pref := SetMinPos pref (SizePrefs.Max sz) in
  LayoutData.with_Size ld (SizePrefs.New need pref (SizePrefs.Max sz)).

(** ** Nodes, children and the Layout container *)

(** Modelled from the spec: Node2DBase is declared outside src/.  Here is the
    part of it that layout.go reads and writes: the name, the style and the
    layout data. *)
Module Node2DBase.
Record t : Type := New {
    UniqueNm : string;
    Style : Style.t;
    LayData : LayoutData.t
  }.
Definition with_LayData (gi : t) (ld : LayoutData.t) : t :=
  New (UniqueNm gi) (Style gi) ld.
End Node2DBase.

(** Modelled from the spec: a child held in [Kids] (the tree substrate is
    outside src/) is a 2D node, or a tree node of another kind, for which
    [KiToNode2D] answers nil and which every loop skips. *)
Inductive Ki : Type :=
| KiNode2D (gi : Node2DBase.t)
| KiOther (nm : string).

(** Modelled from the spec: KiToNode2D (not under src/) gives the 2D node of
    a child, or nil. *)
Definition KiToNode2D (k : Ki) : option Node2DBase.t :=
  match k with
  | KiNode2D gi => Some gi
  | KiOther _ => None
  end.

(** Modelled from the spec: ScrollBar is declared outside src/.  Here are the
    fields of it that layout.go writes. *)
Module ScrollBar.
Record t : Type := New {
    Horiz : bool;
    Min : float64;
    Max : float64;
    Step : float64;
    PageStep : float64;
    ThumbVal : float64;
    Tracking : bool;
    TrackThr : float64;
    Value : float64;
    LayData : LayoutData.t
  }.
Definition with_LayData (sc : t) (ld : LayoutData.t) : t :=
  New (Horiz sc) (Min sc) (Max sc) (Step sc) (PageStep sc) (ThumbVal sc)
      (Tracking sc) (TrackThr sc) (Value sc) ld.
End ScrollBar.

Module Layout.
Record t : Type := New {
    Style : Style.t;
    LayData : LayoutData.t;
    Kids : list Ki;
    Lay : Layouts;
    StackTop : option Ki;
    ChildSize : Vec2D.t;
    ExtraSize : Vec2D.t;
    HasHScroll : bool;
    HasVScroll : bool;
    HScroll : option ScrollBar.t;
    VScroll : option ScrollBar.t;
    GridSize : Point.t;
    GridRow : list LayoutData.t;
    GridCol : list LayoutData.t
  }.
Definition with_LayData (ly : t) (ld : LayoutData.t) : t :=
  New (Style ly) ld (Kids ly) (Lay ly) (StackTop ly) (ChildSize ly)
      (ExtraSize ly) (HasHScroll ly) (HasVScroll ly) (HScroll ly) (VScroll ly)
      (GridSize ly) (GridRow ly) (GridCol ly).
Definition with_Kids (ly : t) (kids : list Ki) : t :=
  New (Style ly) (LayData ly) kids (Lay ly) (StackTop ly) (ChildSize ly)
      (ExtraSize ly) (HasHScroll ly) (HasVScroll ly) (HScroll ly) (VScroll ly)
      (GridSize ly) (GridRow ly) (GridCol ly).
Definition with_StackTop (ly : t) (top : option Ki) : t :=
  New (Style ly) (LayData ly) (Kids ly) (Lay ly) top (ChildSize ly)
      (ExtraSize ly) (HasHScroll ly) (HasVScroll ly) (HScroll ly) (VScroll ly)
      (GridSize ly) (GridRow ly) (GridCol ly).
Definition with_ChildSize (ly : t) (v : Vec2D.t) : t :=
  New (Style ly) (LayData ly) (Kids ly) (Lay ly) (StackTop ly) v
      (ExtraSize ly) (HasHScroll ly) (HasVScroll ly) (HScroll ly) (VScroll ly)
      (GridSize ly) (GridRow ly) (GridCol ly).
Definition with_ExtraSize (ly : t) (v : Vec2D.t) : t :=
  New (Style ly) (LayData ly) (Kids ly) (Lay ly) (StackTop ly) (ChildSize ly)
      v (HasHScroll ly) (HasVScroll ly) (HScroll ly) (VScroll ly)
      (GridSize ly) (GridRow ly) (GridCol ly).
Definition with_HasHScroll (ly : t) (b : bool) : t :=
  New (Style ly) (LayData ly) (Kids ly) (Lay ly) (StackTop ly) (ChildSize ly)
      (ExtraSize ly) b (HasVScroll ly) (HScroll ly) (VScroll ly)
      (GridSize ly) (GridRow ly) (GridCol ly).
Definition with_HasVScroll (ly : t) (b : bool) : t :=
  New (Style ly) (LayData ly) (Kids ly) (Lay ly) (StackTop ly) (ChildSize ly)
      (ExtraSize ly) (HasHScroll ly) b (HScroll ly) (VScroll ly)
      (GridSize ly) (GridRow ly) (GridCol ly).
Definition with_HScroll (ly : t) (sc : option ScrollBar.t) : t :=
  New (Style ly) (LayData ly) (Kids ly) (Lay ly) (StackTop ly) (ChildSize ly)
      (ExtraSize ly) (HasHScroll ly) (HasVScroll ly) sc (VScroll ly)
      (GridSize ly) (GridRow ly) (GridCol ly).
Definition with_VScroll (ly : t) (sc : option ScrollBar.t) : t :=
  New (Style ly) (LayData ly) (Kids ly) (Lay ly) (StackTop ly) (ChildSize ly)
      (ExtraSize ly) (HasHScroll ly) (HasVScroll ly) (HScroll ly) sc
      (GridSize ly) (GridRow ly) (GridCol ly).
Definition with_Grid (ly : t) (gs : Point.t) (rows cols : list LayoutData.t) : t :=
  New (Style ly) (LayData ly) (Kids ly) (Lay ly) (StackTop ly) (ChildSize ly)
      (ExtraSize ly) (HasHScroll ly) (HasVScroll ly) (HScroll ly) (VScroll ly)
      gs rows cols.
End Layout.

(** [ly.GridData[rowcol]] *)
Definition GridData (ly : Layout.t) (rc : RowCol) : list LayoutData.t :=
  match rc with Row => Layout.GridRow ly | Col => Layout.GridCol ly end.

(** [len(s)] as a Go int *)
Definition len {A : Type} (s : list A) : Z := Z.of_nat (length s).

(** [s[i]]: a panic outside the slice *)
Definition index {A : Type} (s : list A) (i : Z) : option A :=
  if (i <? 0)%Z then None else s !! Z.to_nat i.

(** [s[i] = x]: a panic outside the slice *)
Definition set_index {A : Type} (s : list A) (i : Z) (x : A) : option (list A) :=
  if ((0 <=? i)%Z && (i <? len s)%Z)%bool
  then Some (<[Z.to_nat i := x]> s) else None.

(** [make([]T, n)] filled with the zero value: a panic for a negative n *)
Definition make {A : Type} (zero : A) (n : Z) : option (list A) :=
  if (n <? 0)%Z then None else Some (replicate (Z.to_nat n) zero).

(** Do we sum up elements along given dimension?  else max *)
Definition SumDim (ly : Layout.t) (d : Dims2D) : bool :=
  match d, Layout.Lay ly with
  | X, LayoutRow => true
  | Y, LayoutCol => true
  | _, _ => false
  end.

(** ** GatherSizes *)

Module Gathered.
Record t : Type := New {
    sumPref : Vec2D.t; sumNeed : Vec2D.t; maxPref : Vec2D.t; maxNeed : Vec2D.t
  }.
End Gathered.

(** The loop over the children: each 2D child has its sizes updated and is
    added to the four running vectors. *)
Fixpoint GatherSizes_kids (kids : list Ki) (acc : Gathered.t)
  : list Ki * Gathered.t :=
  match kids with
  | [] => ([], acc)
  | c :: rest =>
      match KiToNode2D c with
      | None =>
          let '(rest', acc') := GatherSizes_kids rest acc in (c :: rest', acc')
      | Some gi =>
          let ld := UpdateSizes (Node2DBase.LayData gi) in
          let sz := LayoutData.Size ld in
          let acc1 :=
            Gathered.New
              (Add (Gathered.sumPref acc) (SizePrefs.Pref sz))
              (Add (Gathered.sumNeed acc) (SizePrefs.Need sz))
              (Vec2D_Max (Gathered.maxPref acc) (SizePrefs.Pref sz))
              (Vec2D_Max (Gathered.maxNeed acc) (SizePrefs.Need sz)) in
          let '(rest', acc') := GatherSizes_kids rest acc1 in
          (KiNode2D (Node2DBase.with_LayData gi ld) :: rest', acc')
      end
  end.

(** One turn of [for d := X; d <= Y; d++] *)
Definition GatherSizes_dim (ly : Layout.t) (g : Gathered.t) (sz : SizePrefs.t)
    (d : Dims2D) : SizePrefs.t :=
  if SumDim ly d then
    SizePrefs.New (SetMaxDim (SizePrefs.Need sz) d (Dim (Gathered.sumNeed g) d))
                  (SetMaxDim (SizePrefs.Pref sz) d (Dim (Gathered.sumPref g) d))
                  (SizePrefs.Max sz)
  else
    SizePrefs.New (SetMaxDim (SizePrefs.Need sz) d (Dim (Gathered.maxNeed g) d))
                  (SetMaxDim (SizePrefs.Pref sz) d (Dim (Gathered.maxPref g) d))
                  (SizePrefs.Max sz).

(** The end of both gather passes: add twice the box spacing to Need and
    Pref, then UpdateSizes. *)
Definition addSpaceAndUpdate (ly : Layout.t) (sz : SizePrefs.t) : Layout.t :=
  let spc := Style.BoxSpace (Layout.Style ly) in
  let sz := SizePrefs.New (SetAddVal (SizePrefs.Need sz) (2 * spc))
                          (SetAddVal (SizePrefs.Pref sz) (2 * spc))
                          (SizePrefs.Max sz) in
  Layout.with_LayData ly
    (UpdateSizes (LayoutData.with_Size (Layout.LayData ly) sz)).

(** First pass: gather the size information from the children *)
Definition GatherSizes (ly : Layout.t) : Layout.t :=
  if (len (Layout.Kids ly) =? 0)%Z then ly
  else
    let zero := Gathered.New Vec2DZero Vec2DZero Vec2DZero Vec2DZero in
    let '(kids, g) := GatherSizes_kids (Layout.Kids ly) zero in
    let ly := Layout.with_Kids ly kids in
    let sz := LayoutData.Size (Layout.LayData ly) in
    let sz := GatherSizes_dim ly g sz X in
    let sz := GatherSizes_dim ly g sz Y in
    addSpaceAndUpdate ly sz.

(** ** GatherSizesGrid *)

(** The first loop ("collect overal size"): the columns and rows that the
    children's explicit positions ask for. *)
Fixpoint gridExtent (kids : list Ki) (cols rows : Z) : Z * Z :=
  match kids with
  | [] => (cols, rows)
  | c :: rest =>
      match KiToNode2D c with
      | None => gridExtent rest cols rows
      | Some gi =>
          let lst := Style.Layout (Node2DBase.Style gi) in
          let cols :=
            if (0 <? LayoutStyle.Col lst)%Z
            then MaxInt cols (int_add (LayoutStyle.Col lst) (LayoutStyle.ColSpan lst))
            else cols in
          let rows :=
            if (0 <? LayoutStyle.Row lst)%Z
            then MaxInt rows (int_add (LayoutStyle.Row lst) (LayoutStyle.RowSpan lst))
            else rows in
          gridExtent rest cols rows
      end
  end.

(** [for rows*cols < sz { rows++ }] *)
Fixpoint growRows (fuel : nat) (rows cols sz : Z) : option Z :=
  if (int_mul rows cols <? sz)%Z then
    match fuel with
    | O => None
    | S fuel' => growRows fuel' (int_add rows 1) cols sz
    end
  else Some rows.

(** The grid size (cols, rows) of a layout with at least one child. *)
Definition gridDims (fuel : nat) (ly : Layout.t) : option (Z * Z) :=
  let cols := LayoutStyle.Columns (Style.Layout (Layout.Style ly)) in
  let rows := 0%Z in
  let sz := len (Layout.Kids ly) in
  let '(cols, rows) := gridExtent (Layout.Kids ly) cols rows in
  let cols := if (cols =? 0)%Z then int_sqrt sz else cols in
  rows ← (if (rows =? 0)%Z
          then (if (cols =? 0)%Z then None else Some (int_div sz cols))
          else Some rows);
  rows ← growRows fuel rows cols sz;
  Some (cols, rows).

(** [ld.Size.Need.Set(0, 0); ld.Size.Pref.Set(0, 0)] *)
Definition resetTrack (ld : LayoutData.t) : LayoutData.t :=
  let s := LayoutData.Size ld in
  LayoutData.with_Size ld
    (SizePrefs.New (Vec2D_Set (SizePrefs.Need s) 0 0)
                   (Vec2D_Set (SizePrefs.Pref s) 0 0) (SizePrefs.Max s)).

(** Need and Pref of a track on its axis: the maximum over the cells. *)
Definition gatherTrackSize (d : Dims2D) (tr : LayoutData.t) (gsz : SizePrefs.t)
  : LayoutData.t :=
  let s := LayoutData.Size tr in
  LayoutData.with_Size tr
    (SizePrefs.New (SetMaxDim (SizePrefs.Need s) d (Dim (SizePrefs.Need gsz) d))
                   (SetMaxDim (SizePrefs.Pref s) d (Dim (SizePrefs.Pref gsz) d))
                   (SizePrefs.Max s)).

(** "for max: any -1 stretch dominates, else accumulate any max", the row
    track: [gsz] is the cell's Size. *)
Definition gatherRowMax (tr : LayoutData.t) (gsz : SizePrefs.t) : LayoutData.t :=
  let s := LayoutData.Size tr in
  if Qle_bool 0 (Vec2D.Y (SizePrefs.Max s)) then
    if f_lt (Vec2D.Y (SizePrefs.Max gsz)) 0 then
      LayoutData.with_Size tr
        (SizePrefs.New (SizePrefs.Need s) (SizePrefs.Pref s)
                       (SetDim (SizePrefs.Max s) Y (-1)))
    else
      LayoutData.with_Size tr
        (SizePrefs.New (SizePrefs.Need s) (SizePrefs.Pref s)
                       (SetMaxDim (SizePrefs.Max s) Y (Vec2D.Y (SizePrefs.Max gsz))))
  else tr.

(** The same for the column track.  As in the source, the stretch test reads
    the cell's Max.Y, the accumulation its Max.X. *)
Definition gatherColMax (tr : LayoutData.t) (gsz : SizePrefs.t) : LayoutData.t :=
  let s := LayoutData.Size tr in
  if Qle_bool 0 (Vec2D.X (SizePrefs.Max s)) then
    if f_lt (Vec2D.Y (SizePrefs.Max gsz)) 0 then
      LayoutData.with_Size tr
        (SizePrefs.New (SizePrefs.Need s) (SizePrefs.Pref s)
                       (SetDim (SizePrefs.Max s) X (-1)))
    else
      LayoutData.with_Size tr
        (SizePrefs.New (SizePrefs.Need s) (SizePrefs.Pref s)
                       (SetMaxDim (SizePrefs.Max s) X (Vec2D.X (SizePrefs.Max gsz))))
  else tr.

(** [col++] and the wrap of the raster cursor *)
Definition nextCell (cols rows col row : Z) : Z * Z :=
  let col := int_add col 1 in
  if (cols <=? col)%Z then
    let row := int_add row 1 in
    (0%Z, if (rows <=? row)%Z then 0%Z else row)
  else (col, row).

(** The loop that assigns the children to cells and gathers each cell into
    its row track and its column track. *)
Fixpoint GatherSizesGrid_kids (kids : list Ki) (cols rows col row : Z)
    (gr gc : list LayoutData.t)
  : option (list Ki * list LayoutData.t * list LayoutData.t) :=
  match kids with
  | [] => Some ([], gr, gc)
  | c :: rest =>
      match KiToNode2D c with
      | None =>
          '(rest', gr', gc') ← GatherSizesGrid_kids rest cols rows col row gr gc;
          Some (c :: rest', gr', gc')
      | Some gi =>
          let ld := UpdateSizes (Node2DBase.LayData gi) in
          let gsz := LayoutData.Size ld in
          let lst := Style.Layout (Node2DBase.Style gi) in
          let col := if (0 <? LayoutStyle.Col lst)%Z then LayoutStyle.Col lst else col in
          let row := if (0 <? LayoutStyle.Row lst)%Z then LayoutStyle.Row lst else row in
          rt ← index gr row;
          ct ← index gc col;
          let rt := gatherTrackSize Y rt gsz in
          let ct := gatherTrackSize X ct gsz in
          let rt := gatherRowMax rt gsz in
          let ct := gatherColMax ct gsz in
          gr ← set_index gr row rt;
          gc ← set_index gc col ct;
          let '(col, row) := nextCell cols rows col row in
          '(rest', gr', gc') ← GatherSizesGrid_kids rest cols rows col row gr gc;
          Some (KiNode2D (Node2DBase.with_LayData gi ld) :: rest', gr', gc')
      end
  end.

(** "Y = sum across rows", "X = sum across cols" *)
Definition sumTracks (d : Dims2D) (get : SizePrefs.t -> Vec2D.t)
    (tracks : list LayoutData.t) (acc : Vec2D.t) : Vec2D.t :=
  fold_left (fun acc ld => SetAddDim acc d (Dim (get (LayoutData.Size ld)) d))
            tracks acc.

(** [if len(ly.GridData[rc]) != n { ly.GridData[rc] = make([]LayoutData, n) }] *)
Definition sizeTracks (tracks : list LayoutData.t) (n : Z)
  : option (list LayoutData.t) :=
  if (len tracks =? n)%Z then Some tracks else make LayoutData_zero n.

(** First pass: gather the size information from the children, grid version *)
Definition GatherSizesGrid (fuel : nat) (ly : Layout.t) : option Layout.t :=
  if (len (Layout.Kids ly) =? 0)%Z then Some ly
  else
    '(cols, rows) ← gridDims fuel ly;
    gr ← sizeTracks (GridData ly Row) rows;
    gc ← sizeTracks (GridData ly Col) cols;
    let gr := map resetTrack gr in
    let gc := map resetTrack gc in
    '(kids, gr, gc) ← GatherSizesGrid_kids (Layout.Kids ly) cols rows 0 0 gr gc;
    let sumNeed := sumTracks X SizePrefs.Need gc (sumTracks Y SizePrefs.Need gr Vec2DZero) in
    let sumPref := sumTracks X SizePrefs.Pref gc (sumTracks Y SizePrefs.Pref gr Vec2DZero) in
    let ly := Layout.with_Grid (Layout.with_Kids ly kids) (Point.New cols rows) gr gc in
    let sz := LayoutData.Size (Layout.LayData ly) in
    let sz := SizePrefs.New (SetMax (SizePrefs.Need sz) sumNeed)
                            (SetMax (SizePrefs.Pref sz) sumPref)
                            (SizePrefs.Max sz) in
    Some (addSpaceAndUpdate ly sz).

(** ** LayoutSingle: allocation along the other axis *)

(** Calculations to layout a single-element dimension, returns pos and size *)
Definition LayoutSingleImpl (avail need pref max spc : float64) (al : Align)
  : float64 * float64 :=
  let extra := avail - pref in
  let '(usePref, extra) :=
    if f_lt extra (- (1 # 10)) then (false, avail - need) else (true, extra) in
  let extra := math_Max extra 0 in
  let '(stretchNeed, stretchMax) :=
    if usePref && f_lt 0 extra then (false, f_lt max 0)
    else if f_lt 0 extra then (true, false)
    else (false, false) in
  let pos := spc in
  let size := if usePref then pref else need in
  if stretchMax || stretchNeed then (pos, size + extra)
  else if IsAlignMiddle al then (pos + (1 # 2) * extra, size)
  else if IsAlignEnd al then (pos + extra, size)
  else if Align_eqb al AlignJustify then (pos, size + extra)
  else (pos, size).

(** Layout item in single-dimensional case -- e.g., orthogonal dimension from
    LayoutRow / Col *)
Definition LayoutSingle (dim : Dims2D) (ly : Layout.t) : Layout.t :=
  let spc := Style.BoxSpace (Layout.Style ly) in
  let avail := Dim (LayoutData.AllocSize (Layout.LayData ly)) dim - 2 * spc in
  Layout.with_Kids ly
    (map (fun c =>
            match KiToNode2D c with
            | None => c
            | Some gi =>
                let ld := Node2DBase.LayData gi in
                let sp := LayoutData.Size ld in
                let al := AlignDim (Style.Layout (Node2DBase.Style gi)) dim in
                let '(pos, size) :=
                  LayoutSingleImpl avail (Dim (SizePrefs.Need sp) dim)
                                   (Dim (SizePrefs.Pref sp) dim)
                                   (Dim (SizePrefs.Max sp) dim) spc al in
                let ld := LayoutData.with_AllocSize ld
                            (SetDim (LayoutData.AllocSize ld) dim size) in
                let ld := LayoutData.with_AllocPosRel ld
                            (SetDim (LayoutData.AllocPosRel ld) dim pos) in
                KiNode2D (Node2DBase.with_LayData gi ld)
            end)
         (Layout.Kids ly)).

(** ** LayoutAll: allocation along the flow axis *)

(** What LayoutAll settles before it arranges the children. *)
Module Plan.
Record t : Type := New {
    usePref : bool;
    extra : float64;
    nstretch : Z;
    stretchTot : float64;
    stretchNeed : bool;
    stretchMax : bool;
    addSpace : bool;
    extraSpace : float64;
    pos : float64
  }.
End Plan.

(** The counting loops: the number of children that pass [test], and the sum
    of their Pref along [dim].  [nstretch++] cannot wrap around: it counts
    children of one slice. *)
Definition countStretch (test : SizePrefs.t -> bool) (dim : Dims2D)
    (kids : list Ki) : Z * float64 :=
  fold_left
    (fun (acc : Z * float64) c =>
       match KiToNode2D c with
       | None => acc
       | Some gi =>
           let sp := LayoutData.Size (Node2DBase.LayData gi) in
           if test sp
           then ((fst acc + 1)%Z, snd acc + Dim (SizePrefs.Pref sp) dim)
           else acc
       end)
    kids (0%Z, 0).

(** Stretch candidates when the Pref sizes fit: Max < 0. *)
Definition isStretchMax (dim : Dims2D) (sp : SizePrefs.t) : bool :=
  HasMaxStretch sp dim.

(** Stretch candidates when falling back on Need: Max < 0 or Pref > Need. *)
Definition isStretchNeed (dim : Dims2D) (sp : SizePrefs.t) : bool :=
  HasMaxStretch sp dim || CanStretchNeed sp dim.

Definition LayoutAll_plan (dim : Dims2D) (ly : Layout.t) : Plan.t :=
  let sz := len (Layout.Kids ly) in
  let al := AlignDim (Style.Layout (Layout.Style ly)) dim in
  let spc := Style.BoxSpace (Layout.Style ly) in
  let avail := Dim (LayoutData.AllocSize (Layout.LayData ly)) dim - 2 * spc in
  let pref := Dim (SizePrefs.Pref (LayoutData.Size (Layout.LayData ly))) dim - 2 * spc in
  let need := Dim (SizePrefs.Need (LayoutData.Size (Layout.LayData ly))) dim - 2 * spc in
  let extra := avail - pref in
  let '(usePref, extra) :=
    if f_lt extra (- (1 # 10)) then (false, avail - need) else (true, extra) in
  let extra := math_Max extra 0 in
  let '(nstretch, stretchTot, stretchNeed, stretchMax) :=
    if usePref && f_lt 0 extra then
      let '(n, tot) := countStretch (isStretchMax dim) dim (Layout.Kids ly) in
      (n, tot, false, (0 <? n)%Z)
    else if f_lt 0 extra then
      let '(n, tot) := countStretch (isStretchNeed dim) dim (Layout.Kids ly) in
      (n, tot, (0 <? n)%Z, false)
    else (0%Z, 0, false, false) in
  let '(addSpace, extraSpace) :=
    if (1 <? sz)%Z && f_lt 0 extra && Align_eqb al AlignJustify
       && negb stretchNeed && negb stretchMax
    then (true, extra / inject_Z (sz - 1)) else (false, 0) in
  let pos := spc in
  let pos :=
    if IsAlignEnd al && negb stretchNeed && negb stretchMax
    then pos + extra else pos in
  Plan.New usePref extra nstretch stretchTot stretchNeed stretchMax addSpace
           extraSpace pos.

(** The size LayoutAll gives to a child with size preferences [sp].  The
    share of a stretch candidate divides by [stretchTot], which is 0 when the
    Pref of the candidates add up to 0: the size is then no finite number. *)
Definition LayoutAll_size (dim : Dims2D) (p : Plan.t) (sp : SizePrefs.t)
  : option float64 :=
  let size :=
    if Plan.usePref p then Dim (SizePrefs.Pref sp) dim
    else Dim (SizePrefs.Need sp) dim in
  if Plan.stretchMax p then
    if HasMaxStretch sp dim
    then share ← f_div (Dim (SizePrefs.Pref sp) dim) (Plan.stretchTot p);
         Some (size + Plan.extra p * share)
    else Some size
  else if Plan.stretchNeed p then
    if HasMaxStretch sp dim || CanStretchNeed sp dim
    then share ← f_div (Dim (SizePrefs.Pref sp) dim) (Plan.stretchTot p);
         Some (size + Plan.extra p * share)
    else Some size
  else Some size.

(** "now arrange everyone": [i] is the index of the first of [kids], [pos]
    the running position.  [None] when a size is no finite number: that size
    and every position after it are then NaN or infinite. *)
Fixpoint LayoutAll_kids (dim : Dims2D) (p : Plan.t) (kids : list Ki) (i : Z)
    (pos : float64) : option (list Ki) :=
  match kids with
  | [] => Some []
  | c :: rest =>
      match KiToNode2D c with
      | None =>
          rest' ← LayoutAll_kids dim p rest (i + 1)%Z pos;
          Some (c :: rest')
      | Some gi =>
          let ld := Node2DBase.LayData gi in
          size ← LayoutAll_size dim p (LayoutData.Size ld);
          let pos :=
            if negb (Plan.stretchMax p) && negb (Plan.stretchNeed p)
               && Plan.addSpace p && (0 <? i)%Z
            then pos + Plan.extraSpace p else pos in
          let ld := LayoutData.with_AllocSize ld (SetDim (LayoutData.AllocSize ld) dim size) in
          let ld := LayoutData.with_AllocPosRel ld (SetDim (LayoutData.AllocPosRel ld) dim pos) in
          rest' ← LayoutAll_kids dim p rest (i + 1)%Z (pos + size);
          Some (KiNode2D (Node2DBase.with_LayData gi ld) :: rest')
      end
  end.

(** Layout all children along given dim -- only affects that dim *)
Definition LayoutAll (dim : Dims2D) (ly : Layout.t) : option Layout.t :=
  if (len (Layout.Kids ly) =? 0)%Z then Some ly
  else
    let p := LayoutAll_plan dim ly in
    kids ← LayoutAll_kids dim p (Layout.Kids ly) 0 (Plan.pos p);
    Some (Layout.with_Kids ly kids).

(** The allocated size of the child at index [i] along [dim], when that child
    is a 2D node. *)
Definition childAllocSize (ly : Layout.t) (i : nat) (dim : Dims2D) : option float64 :=
  c ← Layout.Kids ly !! i;
  gi ← KiToNode2D c;
  Some (Dim (LayoutData.AllocSize (Node2DBase.LayData gi)) dim).

(** The size preferences of the child at index [i], when it is a 2D node. *)
Definition childSize (ly : Layout.t) (i : nat) : option SizePrefs.t :=
  c ← Layout.Kids ly !! i;
  gi ← KiToNode2D c;
  Some (LayoutData.Size (Node2DBase.LayData gi)).

(** Final pass through children to finalize the layout, computing summary
    size stats *)
Definition FinalizeLayout (ly : Layout.t) : Layout.t :=
  Layout.with_ChildSize ly
    (fold_left
       (fun cs c =>
          match KiToNode2D c with
          | None => cs
          | Some gi =>
              let ld := Node2DBase.LayData gi in
              SetMax cs (Add (LayoutData.AllocPosRel ld) (LayoutData.AllocSize ld))
          end)
       (Layout.Kids ly) Vec2DZero).

(** ** Overflow and scroll bars *)

(** [&ScrollBar{}], with [Horiz] as set by the caller.  InitName, SetParent,
    Init2D and Defaults act on parts of the scroll bar widget that the layout
    never reads. *)
Definition newScrollBar (horiz : bool) : ScrollBar.t :=
  ScrollBar.New horiz 0 0 0 0 0 false 0 0 LayoutData_zero.

Definition setScroll (sc : ScrollBar.t) (max step thumb : float64) : ScrollBar.t :=
  ScrollBar.New (ScrollBar.Horiz sc) 0 max step (10 * step) thumb true step
                (ScrollBar.Value sc) (ScrollBar.LayData sc).

Definition SetHScroll (ly : Layout.t) : Layout.t :=
  let sc := match Layout.HScroll ly with
            | None => newScrollBar true
            | Some sc => sc
            end in
  let spc := Style.BoxSpace (Layout.Style ly) in
  Layout.with_HScroll ly
    (Some (setScroll sc
             (Vec2D.X (Layout.ChildSize ly) + Vec2D.X (Layout.ExtraSize ly))
             (Style.FontSize (Layout.Style ly))
             (Vec2D.X (LayoutData.AllocSize (Layout.LayData ly)) - spc))).

Definition SetVScroll (ly : Layout.t) : Layout.t :=
  let sc := match Layout.VScroll ly with
            | None => newScrollBar false
            | Some sc => sc
            end in
  let spc := Style.BoxSpace (Layout.Style ly) in
  Layout.with_VScroll ly
    (Some (setScroll sc
             (Vec2D.Y (Layout.ChildSize ly) + Vec2D.Y (Layout.ExtraSize ly))
             (Style.FontSize (Layout.Style ly))
             (Vec2D.Y (LayoutData.AllocSize (Layout.LayData ly)) - spc))).

Definition DeactivateScroll (sc : ScrollBar.t) : ScrollBar.t :=
  let ld := ScrollBar.LayData sc in
  ScrollBar.with_LayData sc
    (LayoutData.with_AllocSize (LayoutData.with_AllocPos ld Vec2DZero) Vec2DZero).

(** The placement of one scroll bar along the edge of the layout: [rel] is
    its AllocPosRel, [size] its AllocSize. *)
Definition placeScroll (sc : ScrollBar.t) (rel size : Vec2D.t) : ScrollBar.t :=
  let ld := ScrollBar.LayData sc in
  let ld := LayoutData.with_AllocPosRel ld rel in
  let ld := LayoutData.with_AllocPosOrig ld (LayoutData.AllocPos ld) in
  ScrollBar.with_LayData sc (LayoutData.with_AllocSize ld size).

Definition LayoutScrolls (ly : Layout.t) : Layout.t :=
  let sbw := LayoutStyle.ScrollBarWidth (Style.Layout (Layout.Style ly)) in
  let rel := LayoutData.AllocPosRel (Layout.LayData ly) in
  let alloc := LayoutData.AllocSize (Layout.LayData ly) in
  let ly :=
    if Layout.HasHScroll ly then
      Layout.with_HScroll ly
        (sc ← Layout.HScroll ly;
         Some (placeScroll sc
                 (Vec2D.New (Vec2D.X rel) (Vec2D.Y rel + Vec2D.Y alloc - sbw - 2))
                 (Vec2D.New (if Layout.HasVScroll ly
                             then Vec2D.X alloc - sbw else Vec2D.X alloc) sbw)))
    else Layout.with_HScroll ly (DeactivateScroll <$> Layout.HScroll ly) in
  if Layout.HasVScroll ly then
    Layout.with_VScroll ly
      (sc ← Layout.VScroll ly;
       Some (placeScroll sc
               (Vec2D.New (Vec2D.X rel + Vec2D.X alloc - sbw - 2) (Vec2D.Y rel))
               (Vec2D.New sbw (if Layout.HasHScroll ly
                               then Vec2D.Y alloc - sbw else Vec2D.Y alloc))))
  else Layout.with_VScroll ly (DeactivateScroll <$> Layout.VScroll ly).

(** Process any overflow according to overflow settings *)
Definition ManageOverflow (ly : Layout.t) : Layout.t :=
  if (len (Layout.Kids ly) =? 0)%Z then ly
  else
    let spc := Style.BoxSpace (Layout.Style ly) in
    let avail := SubVal (LayoutData.AllocSize (Layout.LayData ly)) spc in
    let ly := Layout.with_ExtraSize ly (SetVal (Layout.ExtraSize ly) 0) in
    let ly := Layout.with_HasHScroll ly false in
    let ly := Layout.with_HasVScroll ly false in
    if negb (Overflow_eqb (LayoutStyle.Overflow (Style.Layout (Layout.Style ly)))
                          OverflowHidden)
    then
      let sbw := LayoutStyle.ScrollBarWidth (Style.Layout (Layout.Style ly)) in
      let ly :=
        if f_lt (Vec2D.X avail) (Vec2D.X (Layout.ChildSize ly)) then
          Layout.with_ExtraSize (Layout.with_HasHScroll ly true)
                                (SetAddDim (Layout.ExtraSize ly) Y sbw)
        else ly in
      let ly :=
        if f_lt (Vec2D.Y avail) (Vec2D.Y (Layout.ChildSize ly)) then
          Layout.with_ExtraSize (Layout.with_HasVScroll ly true)
                                (SetAddDim (Layout.ExtraSize ly) X sbw)
        else ly in
      let ly := if Layout.HasHScroll ly then SetHScroll ly else ly in
      let ly := if Layout.HasVScroll ly then SetVScroll ly else ly in
      LayoutScrolls ly
    else ly.

(** ** The stacked layout *)

(** Modelled from the spec: [ly.Child(idx)] (the tree package, not under
    src/) is the child at an index, nil outside the children. *)
Definition Child (ly : Layout.t) (idx : Z) : option Ki :=
  index (Layout.Kids ly) idx.

(** Modelled from the spec: [ki.Slice.ValidIndex] (the tree package, not
    under src/) answers the index to use and an error.  The spec has an
    out-of-range index request "reported as an invalid-argument condition":
    an index of the slice is answered as it is, without an error, and any
    other index is an error. *)
Definition ValidIndex (kids : list Ki) (idx : Z) : Z * option string :=
  if ((0 <=? idx)%Z && (idx <? len kids)%Z)%bool
  then (idx, None) else (idx, Some "invalid index"%string).

(** Convenience for LayoutStacked to show child node at a given index.  The
    result is the layout afterwards and the error. *)
Definition ShowChildAtIndex (ly : Layout.t) (idx : Z) : Layout.t * option string :=
  let '(idx, err) := ValidIndex (Layout.Kids ly) idx in
  match err with
  | Some e => (ly, Some e)
  | None => (Layout.with_StackTop ly (Child ly idx), None)
  end.

(** ** SplitView *)

(** [SavedSplits] is nil ([None]) until the first SaveSplits. *)
Module SplitView.
Record t : Type := New {
    Kids : list Ki;
    Splits : list float64;
    SavedSplits : option (list float64);
    Dim : Dims2D
  }.
Definition with_Splits (g : t) (s : list float64) : t :=
  New (Kids g) s (SavedSplits g) (Dim g).
Definition with_SavedSplits (g : t) (s : option (list float64)) : t :=
  New (Kids g) (Splits g) s (Dim g).
End SplitView.

(** [sum := 0.0; for _, sp := range s { sum += sp }] *)
Definition sumSplits (s : list float64) : float64 :=
  fold_left Qplus s 0.

(** UpdateSplits updates the splits to be same length as number of children,
    and normalized.  No step of it can panic. *)
Definition UpdateSplits (g : SplitView.t) : SplitView.t :=
  let sz := len (SplitView.Kids g) in
  if (sz =? 0)%Z then g
  else
    let splits :=
      if (len (SplitView.Splits g) =? sz)%Z then SplitView.Splits g
      else replicate (Z.to_nat sz) 0 in
    let sum := sumSplits splits in
    let '(splits, sum) :=
      if f_eq sum 0 then
        let even := 1 / inject_Z sz in
        (map (fun _ => even) splits, 1)
      else (splits, sum) in
    let norm := 1 / sum in
    SplitView.with_Splits g (map (fun sp => sp * norm) splits).

(** [for i := 0; i < mx; i++ { dst[i] = src[i] }], [n] turns left from [i] *)
Fixpoint copySplits (n : nat) (i : Z) (dst src : list float64)
  : option (list float64) :=
  match n with
  | O => Some dst
  | S n' =>
      v ← index src i;
      dst ← set_index dst i v;
      copySplits n' (i + 1)%Z dst src
  end.


(** SaveSplits saves the current set of splits in SavedSplits, for a later
    RestoreSplits *)
Definition SaveSplits (g : SplitView.t) : option SplitView.t :=
  let sz := len (SplitView.Splits g) in
  if (sz =? 0)%Z then Some g
  else
    let saved :=
      match SplitView.SavedSplits g with
      | None => replicate (Z.to_nat sz) 0
      | Some s => if (len s =? sz)%Z then s else replicate (Z.to_nat sz) 0
      end in
    s ← copySplits (length (SplitView.Splits g)) 0 saved (SplitView.Splits g);
    Some (SplitView.with_SavedSplits g (Some s)).


(** [for _, idx := range idxs { if idx >= 0 && idx < sz { s[idx] = 0 } }] *)
Fixpoint collapseIdxs (sz : Z) (idxs : list Z) (s : list float64)
  : option (list float64) :=
  match idxs with
  | [] => Some s
  | idx :: rest =>
      if ((0 <=? idx)%Z && (idx <? sz)%Z)%bool then
        s ← set_index s idx 0;
        collapseIdxs sz rest s
      else collapseIdxs sz rest s
  end.

(** CollapseChild collapses given child(ren) (sets split proportion to 0),
    optionally saving the prior splits for later Restore function.  The Go
    method has no result: the only outcomes are the new state and a panic. *)
Definition CollapseChild (g : SplitView.t) (save : bool) (idxs : list Z)
  : option SplitView.t :=
  g ← (if save then SaveSplits g else Some g);
  let sz := len (SplitView.Kids g) in
  s ← collapseIdxs sz idxs (SplitView.Splits g);
  Some (UpdateSplits (SplitView.with_Splits g s)).

(** ** Predicates and inputs of the properties *)






(** Need and Pref on an axis are not below what they were. *)
Definition notReduced (before after : SizePrefs.t) (d : Dims2D) : Prop :=
  Dim (SizePrefs.Need before) d <= Dim (SizePrefs.Need after) d /\
  Dim (SizePrefs.Pref before) d <= Dim (SizePrefs.Pref after) d.

(** A layout style with every value 0 and alignment to the start. *)
Definition style0 : LayoutStyle.t :=
  LayoutStyle.New AlignLeft AlignLeft 0 0 0 0 0 0 0 0 OverflowAuto 0 0 0 0 0 0.

(** LayoutData with the given Need, Pref and Max, nothing allocated. *)
Definition layData (need pref max : Vec2D.t) : LayoutData.t :=
  LayoutData.with_Size LayoutData_zero (SizePrefs.New need pref max).

(** A 2D child with the given sizes and style [style0]. *)
Definition node (nm : string) (need pref max : Vec2D.t) : Ki :=
  KiNode2D (Node2DBase.New nm (Style.New style0 0 0) (layData need pref max)).

(** A layout of kind [lay] with the given layout data and children, style
    [style0], no box spacing, nothing else set. *)
Definition layout (lay : Layouts) (ld : LayoutData.t) (kids : list Ki) : Layout.t :=
  Layout.New (Style.New style0 0 0) ld kids lay None Vec2DZero Vec2DZero
             false false None None (Point.New 0 0) [] [].


(** A row with one child of Need 2 and Pref 5; the row's Max is 0 on both
    axes ("no constraint"). *)
Definition unconstrainedRow : Layout.t :=
  layout LayoutRow (layData (Vec2D.New 2 2) Vec2DZero Vec2DZero)
         [node "a" (Vec2D.New 2 2) (Vec2D.New 5 5) Vec2DZero].

(** A row with one child and a box spacing of -3 (a negative margin), whose
    own Need and Pref are 10. *)
Definition negativeSpaceRow : Layout.t :=
  Layout.New (Style.New style0 (-3) 0)
             (layData (Vec2D.New 10 10) (Vec2D.New 10 10) Vec2DZero)
             [node "a" (Vec2D.New 2 2) (Vec2D.New 5 5) Vec2DZero]
             LayoutRow None Vec2DZero Vec2DZero
             false false None None (Point.New 0 0) [] [].

(** A row whose style asks for a minimum width of 100 and a maximum width of
    50, with one child. *)
Definition cappedRow : Layout.t :=
  layout LayoutRow
    (layData (Vec2D.New 100 10) (Vec2D.New 100 10) (Vec2D.New 50 0))
    [node "a" (Vec2D.New 2 2) (Vec2D.New 5 5) Vec2DZero].


(** Max along [d] of the track at index [i] of a grid's rows or columns. *)
Definition trackMax (ly : Layout.t) (rc : RowCol) (i : nat) (d : Dims2D)
  : option float64 :=
  tr ← GridData ly rc !! i;
  Some (Dim (SizePrefs.Max (LayoutData.Size tr)) d).

(** A grid layout with [columns] as its Columns style and the given children,
    no tracks yet. *)
Definition gridLayout (columns : Z) (kids : list Ki) : Layout.t :=
  Layout.New
    (Style.New (LayoutStyle.New AlignLeft AlignLeft 0 0 0 0 0 0 0 0
                                OverflowAuto columns 0 0 0 0 0) 0 0)
    LayoutData_zero kids LayoutGrid None Vec2DZero Vec2DZero
    false false None None (Point.New 0 0) [] [].

(** A 2D child of Need 2 and Pref 5 placed at an explicit grid position. *)
Definition cellAt (nm : string) (col colSpan row rowSpan : Z) : Ki :=
  KiNode2D
    (Node2DBase.New nm
       (Style.New (LayoutStyle.New AlignLeft AlignLeft 0 0 0 0 0 0 0 0
                                   OverflowAuto 0 row col rowSpan colSpan 0) 0 0)
       (layData (Vec2D.New 2 2) (Vec2D.New 5 5) Vec2DZero)).

(** A child of Need 2 and Pref 5 with no grid position of its own. *)
Definition plainCell (nm : string) : Ki :=
  node nm (Vec2D.New 2 2) (Vec2D.New 5 5) Vec2DZero.

(** One cell that may stretch along X only (Max = (-1, 0)). *)
Definition stretchXGrid : Layout.t :=
  gridLayout 0 [node "a" (Vec2D.New 2 2) (Vec2D.New 5 5) (Vec2D.New (-1) 0)].

(** One cell that may stretch along Y only (Max = (0, -1)). *)
Definition stretchYGrid : Layout.t :=
  gridLayout 0 [node "a" (Vec2D.New 2 2) (Vec2D.New 5 5) (Vec2D.New 0 (-1))].

(** Columns = 3 and 7 children without positions of their own. *)
Definition sevenCellGrid : Layout.t :=
  gridLayout 3 [plainCell "a"; plainCell "b"; plainCell "c"; plainCell "d";
                plainCell "e"; plainCell "f"; plainCell "g"].

(** No Columns and 3 children without positions of their own. *)
Definition threeCellGrid : Layout.t :=
  gridLayout 0 [plainCell "a"; plainCell "b"; plainCell "c"].

(** Columns = 3 and one child placed at column 5 with a span of 1. *)
Definition wideCellGrid : Layout.t :=
  gridLayout 3 [cellAt "a" 5 1 0 0].

(** The grid style values of the 2D children that have [0 < pos]: what
    [pos + span] they reach. *)
Definition extents (pos span : LayoutStyle.t -> Z) (kids : list Ki) : list Z :=
  omap (fun c =>
          gi ← KiToNode2D c;
          let lst := Style.Layout (Node2DBase.Style gi) in
          if (0 <? pos lst)%Z then Some (pos lst + span lst)%Z else None)
       kids.

(** The largest of [base] and the numbers of a list. *)
Definition maxOf (base : Z) (l : list Z) : Z := fold_right Z.max base l.

(** The nearest integer to the square root of [n]:
    [round_sqrt n - 1/2 <= sqrt n < round_sqrt n + 1/2]. *)
Definition round_sqrt (n : Z) : Z :=
  let s := Z.sqrt n in if (n - s * s <=? s)%Z then s else (s + 1)%Z.

(** The number of columns as C4 words it: the explicit Columns if given, else
    the largest Col + ColSpan of the children that specify a column, else
    round(sqrt(childCount)). *)
Definition claimedCols (ly : Layout.t) : Z :=
  let columns := LayoutStyle.Columns (Style.Layout (Layout.Style ly)) in
  let ext := extents LayoutStyle.Col LayoutStyle.ColSpan (Layout.Kids ly) in
  if negb (columns =? 0)%Z then columns
  else match ext with
       | [] => round_sqrt (len (Layout.Kids ly))
       | _ => maxOf 0 ext
       end.

(** What a child's grid style must satisfy for [extents] not to wrap. *)
Definition kidsInRange (kids : list Ki) : Prop :=
  forall c gi, In c kids -> KiToNode2D c = Some gi ->
    let lst := Style.Layout (Node2DBase.Style gi) in
    (0 <= LayoutStyle.Col lst < 2 ^ 29)%Z /\
    (0 <= LayoutStyle.ColSpan lst < 2 ^ 29)%Z /\
    (0 <= LayoutStyle.Row lst < 2 ^ 29)%Z /\
    (0 <= LayoutStyle.RowSpan lst < 2 ^ 29)%Z.

(** The grid style values of a layout and its children lie in a range in
    which no int operation of the gather pass wraps around. *)
Definition gridStyleInRange (ly : Layout.t) : Prop :=
  (0 <= LayoutStyle.Columns (Style.Layout (Layout.Style ly)) < 2 ^ 30)%Z /\
  (len (Layout.Kids ly) < 2 ^ 30)%Z /\
  kidsInRange (Layout.Kids ly).

(** The size preferences of the 2D children, in the order of the children. *)
Definition kidSizes (kids : list Ki) : list SizePrefs.t :=
  omap (fun c => gi ← KiToNode2D c;
                 Some (LayoutData.Size (Node2DBase.LayData gi))) kids.

(** Max < 0 along [dim]. *)
Definition maxNegative (dim : Dims2D) (sp : SizePrefs.t) : bool :=
  negb (Qle_bool 0 (Dim (SizePrefs.Max sp) dim)).

(** Max < 0 or Need < Pref along [dim]. *)
Definition maxNegativeOrRoom (dim : Dims2D) (sp : SizePrefs.t) : bool :=
  negb (Qle_bool 0 (Dim (SizePrefs.Max sp) dim))
  || negb (Qle_bool (Dim (SizePrefs.Pref sp) dim) (Dim (SizePrefs.Need sp) dim)).

(** The sum of the Pref along [dim] of the 2D children that pass [test],
    added up from 0 in the order of the children. *)
Definition sumPrefOf (test : SizePrefs.t -> bool) (dim : Dims2D)
    (kids : list Ki) : float64 :=
  fold_left Qplus
    (map (fun sp => Dim (SizePrefs.Pref sp) dim)
         (List.filter test (kidSizes kids)))
    0.

(** The Pref along [dim] of the children that pass [test] do not add up to
    0, when there are such children: the shares of the extra are then finite
    numbers. *)
Definition sharesDefined (test : SizePrefs.t -> bool) (dim : Dims2D)
    (kids : list Ki) : Prop :=
  List.filter test (kidSizes kids) <> [] -> ~ sumPrefOf test dim kids == 0.


(** The space LayoutAll has along [dim]: the allocated size less twice the
    box spacing. *)
Definition availAlong (ly : Layout.t) (dim : Dims2D) : float64 :=
  Dim (LayoutData.AllocSize (Layout.LayData ly)) dim
  - 2 * Style.BoxSpace (Layout.Style ly).

(** The container's own Pref along [dim] less twice the box spacing: what
    LayoutAll compares the available space with. *)
Definition prefAlong (ly : Layout.t) (dim : Dims2D) : float64 :=
  Dim (SizePrefs.Pref (LayoutData.Size (Layout.LayData ly))) dim
  - 2 * Style.BoxSpace (Layout.Style ly).

(** A row of two children that stretch along X (Max.X = -1) with preferred
    widths 10 and 30 and a third child of width 20 that does not (Max.X = 0);
    the row prefers 60 and is allocated 100, so that extra = 40. *)
Definition stretchRow : Layout.t :=
  layout LayoutRow
    (LayoutData.with_AllocSize
       (layData Vec2DZero (Vec2D.New 60 0) Vec2DZero) (Vec2D.New 100 0))
    [node "a" Vec2DZero (Vec2D.New 10 0) (Vec2D.New (-1) 0);
     node "b" Vec2DZero (Vec2D.New 30 0) (Vec2D.New (-1) 0);
     node "c" Vec2DZero (Vec2D.New 20 0) Vec2DZero].







(** A split view over [n] plain children with the given splits, nothing
    saved, split along X. *)
Definition splitView (n : nat) (splits : list float64) : SplitView.t :=
  SplitView.New (replicate n (KiOther "pane")) splits None X.

(** Splits coerced to length [n] as C6 words it: the shares there are kept,
    new entries are 0. *)
Definition coerceKeeping (n : nat) (s : list float64) : list float64 :=
  take n s ++ replicate (n - length s) 0.

(** The renormalization of C6: equal shares when the sum is 0, else each
    share over the sum. *)
Definition renormalized (s : list float64) : list float64 :=
  if f_eq (sumSplits s) 0
  then map (fun _ => 1 / inject_Z (len s)) s
  else map (fun sp => sp / sumSplits s) s.

(** UpdateSplits as C6 words it. *)
Definition claimedUpdateSplits (g : SplitView.t) : list float64 :=
  renormalized (coerceKeeping (length (SplitView.Kids g)) (SplitView.Splits g)).

(** C8's promise for an index in range, for CollapseChild: the call succeeds
    and the share at the index is 0 afterwards. *)
Definition claimedCollapse (g : SplitView.t) (idx : Z) : Prop :=
  (0 <= idx < len (SplitView.Kids g))%Z ->
  exists g' s, CollapseChild g false [idx] = Some g' /\
               index (SplitView.Splits g') idx = Some s /\ s == 0.

(** A stacked layout of three plain children. *)
Definition stackOfThree : Layout.t :=
  layout LayoutStacked LayoutData_zero
         [plainCell "a"; plainCell "b"; plainCell "c"].



(** Two panes with the splits (1/2, 1/2). *)
Definition twoPanes : SplitView.t := splitView 2 [1 # 2; 1 # 2].

(** One pane with the split 1. *)
Definition onePane : SplitView.t := splitView 1 [1].

(** Three panes with two splits only. *)
Definition shortSplits : SplitView.t := splitView 3 [1 # 2; 1 # 2].

(** A frame allocated 50 by 50 whose children take 100 by 20, with a scroll
    bar width of 16 and flags and ExtraSize left over from an earlier pass. *)
Definition overflowingRow (kids : list Ki) : Layout.t :=
  Layout.New
    (Style.New (LayoutStyle.New AlignLeft AlignLeft 0 0 0 0 0 0 0 0
                                OverflowAuto 0 0 0 0 0 16) 0 12)
    (LayoutData.with_AllocSize LayoutData_zero (Vec2D.New 50 50))
    kids LayoutRow None (Vec2D.New 100 20) (Vec2D.New 16 16)
    false true None None (Point.New 0 0) [] [].

(** Every 2D child that names a column (a row) also gives a span of at
    least 1 for it. *)
Definition spansGiven (kids : list Ki) : Prop :=
  forall c gi, In c kids -> KiToNode2D c = Some gi ->
    let lst := Style.Layout (Node2DBase.Style gi) in
    ((0 < LayoutStyle.Col lst)%Z -> (1 <= LayoutStyle.ColSpan lst)%Z) /\
    ((0 < LayoutStyle.Row lst)%Z -> (1 <= LayoutStyle.RowSpan lst)%Z).
(** * Properties *)

(** ** Comparisons on float64 *)

Lemma Qle_bool_false (a b : Q) : Qle_bool a b = false -> b < a.
Proof.
  intros E. destruct (Qlt_le_dec b a) as [H | H]; [exact H |].
  apply Qle_bool_iff in H. congruence.
Qed.

Lemma f_lt_true (a b : Q) : f_lt a b = true -> a < b.
Proof.
  unfold f_lt. intros E. apply negb_true_iff in E. now apply Qle_bool_false.
Qed.

Lemma f_lt_false (a b : Q) : f_lt a b = false -> b <= a.
Proof.
  unfold f_lt. intros E. apply negb_false_iff in E. now apply Qle_bool_iff.
Qed.

Lemma f_lt_intro (a b : Q) : a < b -> f_lt a b = true.
Proof.
  intros H. destruct (f_lt a b) eqn:E; [reflexivity |].
  apply f_lt_false in E. lra.
Qed.

Lemma f_lt_intro_false (a b : Q) : b <= a -> f_lt a b = false.
Proof.
  intros H. destruct (f_lt a b) eqn:E; [| reflexivity].
  apply f_lt_true in E. lra.
Qed.

(** Case analysis on every comparison of the goal, each case with the order
    fact it stands for. *)
Ltac q_cases :=
  repeat match goal with
    | |- context [f_lt ?a ?b] =>
        let E := fresh "E" in
        destruct (f_lt a b) eqn:E;
        [apply f_lt_true in E | apply f_lt_false in E]
    | |- context [Qle_bool ?a ?b] =>
        let E := fresh "E" in
        destruct (Qle_bool a b) eqn:E;
        [apply Qle_bool_iff in E | apply Qle_bool_false in E]
    end.

(** Closed comparisons of integers, by evaluation. *)
Ltac z_closed :=
  vm_compute; repeat split; first [reflexivity | discriminate].

Lemma math_Max_l (x y : Q) : x <= math_Max x y.
Proof. unfold math_Max. q_cases; lra. Qed.


Lemma math_Max_pos (x : Q) : 0 < x -> math_Max x 0 = x.
Proof.
  intros H. unfold math_Max.
  destruct (Qle_bool x 0) eqn:E; [| reflexivity].
  apply Qle_bool_iff in E. lra.
Qed.


(** ** Slices *)

Lemma len_0_nil {A : Type} (l : list A) : (len l =? 0)%Z = true -> l = [].
Proof.
  intros H. apply Z.eqb_eq in H. unfold len in H.
  destruct l; [reflexivity | cbn in H; lia].
Qed.

Lemma len_0_cons {A : Type} (l : list A) : l <> [] -> (len l =? 0)%Z = false.
Proof.
  intros H. destruct (len l =? 0)%Z eqn:E; [| reflexivity].
  now apply len_0_nil in E.
Qed.

(** ** The size of the grid *)

Lemma wrap64_id (z : Z) : (- 2 ^ 63 <= z < 2 ^ 63)%Z -> wrap64 z = z.
Proof.
  intros H. unfold wrap64. rewrite Z.mod_small; lia.
Qed.

Lemma maxOf_shift (base x : Z) (l : list Z) :
  maxOf (Z.max base x) l = Z.max x (maxOf base l).
Proof.
  unfold maxOf. induction l as [| y l IH]; cbn; [lia |]. rewrite IH. lia.
Qed.

Lemma maxOf_range (B base : Z) (l : list Z) :
  (0 <= base < B)%Z -> Forall (fun x => 0 <= x < B)%Z l ->
  (base <= maxOf base l < B)%Z.
Proof.
  intros Hb Hl. unfold maxOf. induction Hl as [| x l Hx Hl IH]; cbn; lia.
Qed.

Lemma kidsInRange_cons (c : Ki) (kids : list Ki) :
  kidsInRange (c :: kids) -> kidsInRange kids.
Proof. intros H k gi Hin. apply H. now right. Qed.

Lemma extents_cols_range (kids : list Ki) :
  kidsInRange kids ->
  Forall (fun x => 0 <= x < 2 ^ 30)%Z
         (extents LayoutStyle.Col LayoutStyle.ColSpan kids).
Proof.
  induction kids as [| c kids IH]; intros H; cbn; [constructor |].
  specialize (IH (kidsInRange_cons _ _ H)).
  destruct c as [gi | nm]; cbn; [| exact IH].
  destruct (0 <? _)%Z; cbn; [| exact IH].
  constructor; [| exact IH].
  destruct (H (KiNode2D gi) gi (or_introl eq_refl) eq_refl) as (? & ? & ? & ?).
  lia.
Qed.

Lemma extents_rows_range (kids : list Ki) :
  kidsInRange kids ->
  Forall (fun x => 0 <= x < 2 ^ 30)%Z
         (extents LayoutStyle.Row LayoutStyle.RowSpan kids).
Proof.
  induction kids as [| c kids IH]; intros H; cbn; [constructor |].
  specialize (IH (kidsInRange_cons _ _ H)).
  destruct c as [gi | nm]; cbn; [| exact IH].
  destruct (0 <? _)%Z; cbn; [| exact IH].
  constructor; [| exact IH].
  destruct (H (KiNode2D gi) gi (or_introl eq_refl) eq_refl) as (? & ? & ? & ?).
  lia.
Qed.

(** The first loop of the grid pass computes the largest extents. *)
Lemma gridExtent_maxOf (kids : list Ki) :
  kidsInRange kids ->
  forall cols rows,
    gridExtent kids cols rows
    = (maxOf cols (extents LayoutStyle.Col LayoutStyle.ColSpan kids),
       maxOf rows (extents LayoutStyle.Row LayoutStyle.RowSpan kids)).
Proof.
  induction kids as [| c kids IH]; intros H cols rows; cbn; [reflexivity |].
  specialize (IH (kidsInRange_cons _ _ H)).
  destruct c as [gi | nm]; cbn; [| apply IH].
  destruct (H (KiNode2D gi) gi (or_introl eq_refl) eq_refl)
    as (Hc & Hcs & Hr & Hrs). cbn in Hc, Hcs, Hr, Hrs.
  rewrite IH. unfold int_add, MaxInt. rewrite !wrap64_id by lia.
  destruct (0 <? LayoutStyle.Col _)%Z, (0 <? LayoutStyle.Row _)%Z; cbn;
    rewrite ?maxOf_shift; reflexivity.
Qed.

(** With enough fuel the loop that adds rows ends, at the first number of
    rows that makes room for [sz] cells. *)
Lemma growRows_ok (cols sz : Z) :
  (1 <= cols < 2 ^ 31)%Z -> (0 <= sz < 2 ^ 30)%Z ->
  forall (fuel : nat) (rows : Z),
    (0 <= rows < 2 ^ 31)%Z ->
    (Z.to_nat (sz - rows * cols) <= fuel)%nat ->
    exists r, growRows fuel rows cols sz = Some r /\
              (rows <= r)%Z /\ (sz <= r * cols)%Z /\
              (r = rows \/ (r - 1) * cols < sz)%Z.
Proof.
  intros Hcols Hsz. induction fuel as [| fuel IH]; intros rows Hrows Hfuel.
  - exists rows. cbn. unfold int_mul. rewrite wrap64_id by nia.
    destruct (rows * cols <? sz)%Z eqn:E.
    + apply Z.ltb_lt in E. lia.
    + apply Z.ltb_ge in E. repeat split; [lia | lia | now left].
  - cbn. unfold int_mul. rewrite wrap64_id by nia.
    destruct (rows * cols <? sz)%Z eqn:E.
    + apply Z.ltb_lt in E. unfold int_add. rewrite wrap64_id by lia.
      destruct (IH (rows + 1)%Z) as (r & Hr & H1 & H2 & H3); [nia | nia |].
      exists r. repeat split; [exact Hr | lia | exact H2 |].
      right. destruct H3 as [-> | H3]; [| exact H3].
      replace (rows + 1 - 1)%Z with rows by lia. exact E.
    + apply Z.ltb_ge in E. exists rows.
      repeat split; [lia | lia | now left].
Qed.

(** The first part of the grid pass: the number of columns and rows. *)
Lemma gridDims_resolved (ly : Layout.t) (fuel : nat) :
  let kids := Layout.Kids ly in
  let sz := len kids in
  let c0 := maxOf (LayoutStyle.Columns (Style.Layout (Layout.Style ly)))
                  (extents LayoutStyle.Col LayoutStyle.ColSpan kids) in
  let r0 := maxOf 0 (extents LayoutStyle.Row LayoutStyle.RowSpan kids) in
  let cols := if (c0 =? 0)%Z then Z.sqrt sz else c0 in
  let rows0 := if (r0 =? 0)%Z then Z.quot sz cols else r0 in
  kids <> [] ->
  gridStyleInRange ly ->
  (length kids <= fuel)%nat ->
  exists rows,
    gridDims fuel ly = Some (cols, rows) /\
    (rows0 <= rows /\ sz <= rows * cols /\
     (rows = rows0 \/ (rows - 1) * cols < sz))%Z /\
    (c0 <= cols /\ r0 <= rows /\ 1 <= cols < 2 ^ 30 /\ 1 <= rows < 2 ^ 30)%Z.
Proof.
  intros kids sz c0 r0 cols rows0 Hkids (Hcolumns & Hlen & Hrange) Hfuel.
  fold kids in Hrange, Hlen. fold sz in Hlen.
  assert (Hsz : (1 <= sz)%Z).
  { unfold sz, len. destruct kids; [congruence | cbn; lia]. }
  assert (Hc0 : (0 <= c0 < 2 ^ 30)%Z).
  { pose proof (maxOf_range (2 ^ 30) _ _ Hcolumns
                  (extents_cols_range kids Hrange)) as H.
    fold c0 in H. lia. }
  assert (Hr0 : (0 <= r0 < 2 ^ 30)%Z).
  { assert (H0 : (0 <= 0 < 2 ^ 30)%Z) by lia.
    pose proof (maxOf_range (2 ^ 30) 0 _ H0
                  (extents_rows_range kids Hrange)) as H.
    fold r0 in H. lia. }
  assert (Hsqrt : (1 <= Z.sqrt sz <= sz)%Z).
  { assert (Hs0 : (0 <= sz)%Z) by lia.
    pose proof (Z.sqrt_spec sz Hs0) as Hs. cbv zeta in Hs.
    pose proof (Z.sqrt_nonneg sz) as Hn.
    unfold Z.succ in Hs. generalize dependent (Z.sqrt sz). intros s Hs Hn.
    nia. }
  assert (Hcols : (1 <= cols < 2 ^ 30)%Z).
  { subst cols. destruct (c0 =? 0)%Z eqn:E; [lia |].
    apply Z.eqb_neq in E. lia. }
  assert (Hquot : (0 <= Z.quot sz cols <= sz)%Z).
  { rewrite Z.quot_div_nonneg by lia. split.
    - apply Z.div_pos; lia.
    - apply Z.div_le_upper_bound; nia. }
  assert (Hrows0 : (0 <= rows0 < 2 ^ 30)%Z).
  { subst rows0. destruct (r0 =? 0)%Z; lia. }
  destruct (growRows_ok cols sz ltac:(lia) ltac:(lia) fuel rows0 ltac:(lia))
    as (rows & Hgrow & Hrows).
  { unfold sz, len in *. nia. }
  assert (Hdims : gridDims fuel ly = Some (cols, rows)).
  { unfold gridDims. fold kids. rewrite (gridExtent_maxOf kids Hrange).
    fold c0 r0 sz. unfold int_sqrt. fold cols.
    replace (cols =? 0)%Z with false by (symmetry; apply Z.eqb_neq; lia).
    unfold int_div. rewrite wrap64_id by lia. fold rows0.
    replace (if (r0 =? 0)%Z then Some (Z.quot sz cols) else Some r0)
      with (Some rows0) by (subst rows0; now destruct (r0 =? 0)%Z).
    cbn. rewrite Hgrow. reflexivity. }
  exists rows. split; [exact Hdims |]. split; [exact Hrows |].
  assert (Hcc : (c0 <= cols)%Z).
  { subst cols. destruct (c0 =? 0)%Z eqn:E; [| lia].
    apply Z.eqb_eq in E. lia. }
  assert (Hrr : (r0 <= rows0)%Z).
  { subst rows0. destruct (r0 =? 0)%Z eqn:E; [| lia].
    apply Z.eqb_eq in E. lia. }
  clear - Hcc Hrr Hrows Hcols Hrows0 Hsz Hlen. nia.
Qed.

(** *** The grid pass completes *)

Lemma maxOf_ge (base x : Z) (l : list Z) : In x l -> (x <= maxOf base l)%Z.
Proof.
  unfold maxOf. induction l as [| y l IH]; intros H; [contradiction |].
  cbn. destruct H as [-> | H]; [lia |]. specialize (IH H). lia.
Qed.

Lemma extents_In (pos span : LayoutStyle.t -> Z) (kids : list Ki) (c : Ki)
    (gi : Node2DBase.t) :
  In c kids -> KiToNode2D c = Some gi ->
  (0 < pos (Style.Layout (Node2DBase.Style gi)))%Z ->
  In (pos (Style.Layout (Node2DBase.Style gi))
      + span (Style.Layout (Node2DBase.Style gi)))%Z
     (extents pos span kids).
Proof.
  intros Hin Hc Hpos. induction kids as [| k kids IH]; [contradiction |].
  unfold extents. cbn. destruct Hin as [-> | Hin].
  - rewrite Hc. cbn. apply Z.ltb_lt in Hpos. rewrite Hpos. now left.
  - specialize (IH Hin). unfold extents in IH.
    destruct (KiToNode2D k) as [gk |]; cbn; [| exact IH].
    destruct (0 <? _)%Z; [right |]; exact IH.
Qed.

Lemma nextCell_range (cols rows col row : Z) :
  (1 <= cols < 2 ^ 31)%Z -> (1 <= rows < 2 ^ 31)%Z ->
  (0 <= col < cols)%Z -> (0 <= row < rows)%Z ->
  (0 <= fst (nextCell cols rows col row) < cols)%Z /\
  (0 <= snd (nextCell cols rows col row) < rows)%Z.
Proof.
  intros Hc Hr Hcol Hrow. unfold nextCell, int_add.
  rewrite !wrap64_id by lia.
  destruct (cols <=? col + 1)%Z eqn:E1; cbn.
  - destruct (rows <=? row + 1)%Z eqn:E2; cbn; [lia |].
    apply Z.leb_gt in E2. lia.
  - apply Z.leb_gt in E1. lia.
Qed.

Lemma set_index_ok {A : Type} (s : list A) (i : Z) (x : A) :
  (0 <= i < len s)%Z ->
  exists s', set_index s i x = Some s' /\ len s' = len s.
Proof.
  intros H. unfold set_index.
  replace ((0 <=? i)%Z && (i <? len s)%Z)%bool with true
    by (symmetry; apply andb_true_iff; split;
        [apply Z.leb_le | apply Z.ltb_lt]; lia).
  eexists. split; [reflexivity |]. unfold len. now rewrite length_insert.
Qed.

Lemma index_ok {A : Type} (s : list A) (i : Z) :
  (0 <= i < len s)%Z -> exists x, index s i = Some x.
Proof.
  intros H. unfold index.
  replace (i <? 0)%Z with false by (symmetry; apply Z.ltb_ge; lia).
  apply lookup_lt_is_Some_2. unfold len in H. lia.
Qed.

(** The loop over the cells cannot leave the tracks when every explicit
    position lies inside the grid. *)
Lemma GatherSizesGrid_kids_completes (cols rows : Z) (kids : list Ki) :
  (1 <= cols < 2 ^ 31)%Z -> (1 <= rows < 2 ^ 31)%Z ->
  (forall c gi, In c kids -> KiToNode2D c = Some gi ->
     (0 <= LayoutStyle.Col (Style.Layout (Node2DBase.Style gi)) < cols)%Z /\
     (0 <= LayoutStyle.Row (Style.Layout (Node2DBase.Style gi)) < rows)%Z) ->
  forall col row gr gc,
    (0 <= col < cols)%Z -> (0 <= row < rows)%Z ->
    len gr = rows -> len gc = cols ->
    exists r, GatherSizesGrid_kids kids cols rows col row gr gc = Some r.
Proof.
  intros Hc Hr. induction kids as [| k kids IH];
    intros Hkids col row gr gc Hcol Hrow Hgr Hgc;
    cbn [GatherSizesGrid_kids].
  - now eexists.
  - assert (Hrest : forall c gi, In c kids -> KiToNode2D c = Some gi ->
       (0 <= LayoutStyle.Col (Style.Layout (Node2DBase.Style gi)) < cols)%Z /\
       (0 <= LayoutStyle.Row (Style.Layout (Node2DBase.Style gi)) < rows)%Z)
      by (intros c gi Hin; apply Hkids; now right).
    destruct k as [gi | nm]; cbn [KiToNode2D].
    + destruct (Hkids (KiNode2D gi) gi (or_introl eq_refl) eq_refl)
        as [Hkc Hkr].
      set (lst := Style.Layout (Node2DBase.Style gi)) in *.
      set (col' := if (0 <? LayoutStyle.Col lst)%Z
                   then LayoutStyle.Col lst else col).
      set (row' := if (0 <? LayoutStyle.Row lst)%Z
                   then LayoutStyle.Row lst else row).
      assert (Hcol' : (0 <= col' < cols)%Z)
        by (subst col'; destruct (0 <? LayoutStyle.Col lst)%Z; lia).
      assert (Hrow' : (0 <= row' < rows)%Z)
        by (subst row'; destruct (0 <? LayoutStyle.Row lst)%Z; lia).
      destruct (index_ok gr row') as [rt ->]; [lia |].
      destruct (index_ok gc col') as [ct ->]; [lia |].
      cbn [mbind option_bind].
      match goal with
      | |- context [set_index gr row' ?x] =>
          destruct (set_index_ok gr row' x) as (gr1 & -> & Hgr1); [lia |]
      end.
      cbn [mbind option_bind].
      match goal with
      | |- context [set_index gc col' ?x] =>
          destruct (set_index_ok gc col' x) as (gc1 & -> & Hgc1); [lia |]
      end.
      cbn [mbind option_bind].
      destruct (nextCell_range cols rows col' row' Hc Hr Hcol' Hrow')
        as [Hn1 Hn2].
      destruct (nextCell cols rows col' row') as [col1 row1]. cbn in Hn1, Hn2.
      destruct (IH Hrest col1 row1 gr1 gc1 Hn1 Hn2) as [[[r1 r2] r3] ->];
        [lia | lia |].
      cbn. now eexists.
    + destruct (IH Hrest col row gr gc Hcol Hrow Hgr Hgc) as [[[r1 r2] r3] ->].
      cbn. now eexists.
Qed.

Lemma sizeTracks_ok (tracks : list LayoutData.t) (n : Z) :
  (0 <= n)%Z ->
  exists t, sizeTracks tracks n = Some t /\ len t = n.
Proof.
  intros Hn. unfold sizeTracks. destruct (len tracks =? n)%Z eqn:E.
  - apply Z.eqb_eq in E. now exists tracks.
  - unfold make. replace (n <? 0)%Z with false
      by (symmetry; apply Z.ltb_ge; lia).
    eexists. split; [reflexivity |].
    unfold len. rewrite length_replicate. lia.
Qed.

(** With grid style values in range, a span for every explicit position and
    fuel for one turn of the row loop per child, GatherSizesGrid returns. *)
Lemma GatherSizesGrid_completes (ly : Layout.t) (fuel : nat) :
  Layout.Kids ly <> [] ->
  gridStyleInRange ly ->
  spansGiven (Layout.Kids ly) ->
  (length (Layout.Kids ly) <= fuel)%nat ->
  exists ly', GatherSizesGrid fuel ly = Some ly'.
Proof.
  intros Hkids Hrange Hspans Hfuel.
  destruct (gridDims_resolved ly fuel Hkids Hrange Hfuel)
    as (rows & Hdims & _ & Hc0 & Hr0 & Hcols & Hrows).
  match type of Hdims with
  | _ = Some (?c, _) => set (cols := c) in *
  end.
  destruct Hrange as (_ & _ & Hrange).
  assert (Hpos : forall c gi, In c (Layout.Kids ly) -> KiToNode2D c = Some gi ->
     (0 <= LayoutStyle.Col (Style.Layout (Node2DBase.Style gi)) < cols)%Z /\
     (0 <= LayoutStyle.Row (Style.Layout (Node2DBase.Style gi)) < rows)%Z).
  { intros c gi Hin Hgi.
    destruct (Hrange c gi Hin Hgi) as (Hcol & Hcs & Hrow & Hrs).
    destruct (Hspans c gi Hin Hgi) as [Hsc Hsr].
    cbn in Hcol, Hcs, Hrow, Hrs, Hsc, Hsr. split.
    - destruct (Z.eq_dec (LayoutStyle.Col (Style.Layout (Node2DBase.Style gi))) 0%Z)
        as [E | E]; [lia |].
      assert (Hp : (0 < LayoutStyle.Col (Style.Layout (Node2DBase.Style gi)))%Z)
        by lia.
      pose proof (maxOf_ge
                    (LayoutStyle.Columns (Style.Layout (Layout.Style ly))) _ _
                    (extents_In LayoutStyle.Col LayoutStyle.ColSpan _ c gi
                       Hin Hgi Hp)) as Hge.
      specialize (Hsc Hp). lia.
    - destruct (Z.eq_dec (LayoutStyle.Row (Style.Layout (Node2DBase.Style gi))) 0%Z)
        as [E | E]; [lia |].
      assert (Hp : (0 < LayoutStyle.Row (Style.Layout (Node2DBase.Style gi)))%Z)
        by lia.
      pose proof (maxOf_ge 0%Z _ _
                    (extents_In LayoutStyle.Row LayoutStyle.RowSpan _ c gi
                       Hin Hgi Hp)) as Hge.
      specialize (Hsr Hp). lia. }
  unfold GatherSizesGrid. rewrite (len_0_cons _ Hkids), Hdims.
  cbn [mbind option_bind GridData].
  destruct (sizeTracks_ok (Layout.GridRow ly) rows) as (gr & -> & Hgr); [lia |].
  destruct (sizeTracks_ok (Layout.GridCol ly) cols) as (gc & -> & Hgc); [lia |].
  cbn [mbind option_bind].
  destruct (GatherSizesGrid_kids_completes cols rows (Layout.Kids ly)
              ltac:(lia) ltac:(lia) Hpos 0%Z 0%Z
              (map resetTrack gr) (map resetTrack gc))
    as [[[r1 r2] r3] ->]; try lia.
  - unfold len. rewrite length_map. exact Hgr.
  - unfold len. rewrite length_map. exact Hgc.
  - cbn [mbind option_bind]. now eexists.
Qed.

(** ** The size invariants *)

Lemma UpdateSizes_Max (ld : LayoutData.t) :
  SizePrefs.Max (LayoutData.Size (UpdateSizes ld))
  = SizePrefs.Max (LayoutData.Size ld).
Proof. reflexivity. Qed.








Lemma addSpaceAndUpdate_Size (ly : Layout.t) (sz : SizePrefs.t) :
  LayoutData.Size (Layout.LayData (addSpaceAndUpdate ly sz))
  = LayoutData.Size
      (UpdateSizes
         (LayoutData.with_Size (Layout.LayData ly)
            (SizePrefs.New
               (SetAddVal (SizePrefs.Need sz) (2 * Style.BoxSpace (Layout.Style ly)))
               (SetAddVal (SizePrefs.Pref sz) (2 * Style.BoxSpace (Layout.Style ly)))
               (SizePrefs.Max sz)))).
Proof. reflexivity. Qed.





(** ** Gathering does not reduce the container's own sizes *)

Lemma SetMaxDim_ge (a : Vec2D.t) (d d' : Dims2D) (val : float64) :
  Dim a d' <= Dim (SetMaxDim a d val) d'.
Proof.
  destruct a as [ax ay]. destruct d, d'; cbn; unfold math_Max; q_cases; lra.
Qed.

Lemma SetMax_ge (a b : Vec2D.t) (d : Dims2D) : Dim a d <= Dim (SetMax a b) d.
Proof.
  destruct a as [ax ay], b as [bx b_y]. destruct d; cbn; apply math_Max_l.
Qed.

Lemma GatherSizes_dim_Max (ly : Layout.t) (g : Gathered.t) (sz : SizePrefs.t)
    (d : Dims2D) :
  SizePrefs.Max (GatherSizes_dim ly g sz d) = SizePrefs.Max sz.
Proof. unfold GatherSizes_dim. now destruct (SumDim ly d). Qed.

Lemma GatherSizes_dim_ge (ly : Layout.t) (g : Gathered.t) (sz : SizePrefs.t)
    (d d' : Dims2D) :
  notReduced sz (GatherSizes_dim ly g sz d) d'.
Proof.
  unfold GatherSizes_dim, notReduced.
  destruct (SumDim ly d); cbn; split; apply SetMaxDim_ge.
Qed.

(** The end of a gather pass keeps Need and Pref at or above their earlier
    values when the box spacing is not negative and the earlier values were
    within a positive Max. *)
Lemma addSpaceAndUpdate_notReduced (ly : Layout.t) (sz : SizePrefs.t)
    (d : Dims2D) :
  let sz0 := LayoutData.Size (Layout.LayData ly) in
  0 <= Style.BoxSpace (Layout.Style ly) ->
  SizePrefs.Max sz = SizePrefs.Max sz0 ->
  (0 < Dim (SizePrefs.Max sz0) d ->
   Dim (SizePrefs.Need sz0) d <= Dim (SizePrefs.Max sz0) d /\
   Dim (SizePrefs.Pref sz0) d <= Dim (SizePrefs.Max sz0) d) ->
  notReduced sz0 sz d ->
  notReduced sz0 (LayoutData.Size (Layout.LayData (addSpaceAndUpdate ly sz))) d.
Proof.
  intros sz0 Hspc Hmax Hin [Hn Hp]. subst sz0.
  rewrite addSpaceAndUpdate_Size.
  destruct ly as [[ls spc fs] [[[n0x n0y] [p0x p0y] [m0x m0y]] mg gp gs [ax ay] ap apr apo]
                    kids lay top cs es hh hv hs vs gsz gr gc].
  destruct sz as [[nx ny] [px py] [mx my]].
  cbn in Hspc, Hmax, Hin, Hn, Hp. injection Hmax as -> ->.
  unfold notReduced.
  destruct d; cbn in *; unfold math_Min, math_Max;
    repeat (q_cases; cbn [andb orb negb]);
    split; try lra; destruct Hin; lra.
Qed.

(** C9 (as amended). When the container's box spacing is not negative and, on
    the axis, its Need and Pref do not exceed a positive Max before the pass,
    then after GatherSizes, and after a GatherSizesGrid that completes, its
    Need and Pref on that axis are at least what they were.  GatherSizesGrid
    completes under the conditions named for the size invariant. *)
Theorem gather_keeps_own_sizes (ly : Layout.t) (d : Dims2D) :
  let sz0 := LayoutData.Size (Layout.LayData ly) in
  0 <= Style.BoxSpace (Layout.Style ly) ->
  (0 < Dim (SizePrefs.Max sz0) d ->
   Dim (SizePrefs.Need sz0) d <= Dim (SizePrefs.Max sz0) d /\
   Dim (SizePrefs.Pref sz0) d <= Dim (SizePrefs.Max sz0) d) ->
  notReduced sz0 (LayoutData.Size (Layout.LayData (GatherSizes ly))) d /\
  (forall fuel ly', GatherSizesGrid fuel ly = Some ly' ->
     notReduced sz0 (LayoutData.Size (Layout.LayData ly')) d) /\
  (forall fuel, Layout.Kids ly <> [] -> gridStyleInRange ly ->
     spansGiven (Layout.Kids ly) -> (length (Layout.Kids ly) <= fuel)%nat ->
     exists ly', GatherSizesGrid fuel ly = Some ly').
Proof.
  intros sz0 Hspc Hin. split; [| split].
  3: { intros fuel Hkids Hrange Hspans Hfuel.
       now apply GatherSizesGrid_completes. }
  - unfold GatherSizes. destruct (len (Layout.Kids ly) =? 0)%Z.
    + split; apply Qle_refl.
    + destruct (GatherSizes_kids (Layout.Kids ly) _) as [kids g].
      apply (addSpaceAndUpdate_notReduced (Layout.with_Kids ly kids)).
      * exact Hspc.
      * now rewrite !GatherSizes_dim_Max.
      * exact Hin.
      * cbn.
        destruct (GatherSizes_dim_ge (Layout.with_Kids ly kids) g sz0 X d)
          as [H1 H2].
        destruct (GatherSizes_dim_ge (Layout.with_Kids ly kids) g
                    (GatherSizes_dim (Layout.with_Kids ly kids) g sz0 X) Y d)
          as [H3 H4].
        split; eapply Qle_trans; eauto.
  - intros fuel ly' Hrun. unfold GatherSizesGrid in Hrun.
    destruct (len (Layout.Kids ly) =? 0)%Z.
    + injection Hrun as <-. split; apply Qle_refl.
    + apply bind_Some in Hrun as ([cols rows] & _ & Hrun).
      apply bind_Some in Hrun as (gr & _ & Hrun).
      apply bind_Some in Hrun as (gc & _ & Hrun).
      apply bind_Some in Hrun as ([[kids gr'] gc'] & _ & Hrun).
      injection Hrun as <-.
      apply (addSpaceAndUpdate_notReduced
               (Layout.with_Grid (Layout.with_Kids ly kids) _ _ _)).
      * exact Hspc.
      * reflexivity.
      * exact Hin.
      * split; cbn; apply SetMax_ge.
Qed.

(** The row with one child and Max 0 keeps its own Need of 2 along X,
    gathered as a row and as a grid. *)
Lemma gather_keeps_own_sizes_witness :
  notReduced (LayoutData.Size (Layout.LayData unconstrainedRow))
             (LayoutData.Size (Layout.LayData (GatherSizes unconstrainedRow))) X /\
  exists ly', GatherSizesGrid 1 unconstrainedRow = Some ly' /\
              notReduced (LayoutData.Size (Layout.LayData unconstrainedRow))
                         (LayoutData.Size (Layout.LayData ly')) X.
Proof.
  destruct (gather_keeps_own_sizes unconstrainedRow X) as (Hrow & Hgrid & _).
  - vm_compute. discriminate.
  - intros H. vm_compute in H. discriminate.
  - split; [exact Hrow |].
    eexists. split; [vm_compute; reflexivity |].
    apply (Hgrid 1%nat). vm_compute. reflexivity.
Defined.

(** C9 as stated fails where the container's own Need exceeds its Max: a row
    with Need 100 and Max 50 along X leaves GatherSizes with Need 50.  It also
    fails with a negative box spacing: with a spacing of -3 a row of Need 10
    leaves with Need 4. *)
Lemma gather_keeps_own_sizes_counterexample :
  ~ notReduced (LayoutData.Size (Layout.LayData cappedRow))
               (LayoutData.Size (Layout.LayData (GatherSizes cappedRow))) X /\
  ~ notReduced (LayoutData.Size (Layout.LayData negativeSpaceRow))
               (LayoutData.Size (Layout.LayData (GatherSizes negativeSpaceRow))) X.
Proof.
  split; intros [H _]; vm_compute in H; apply H; reflexivity.
Qed.

(** ** Grid tracks: "any -1 stretch dominates" *)

(** A row track that does not stretch yet takes Max.Y = -1 from a cell with
    Max.Y < 0. *)
Lemma gatherRowMax_stretch (tr : LayoutData.t) (gsz : SizePrefs.t) :
  0 <= Vec2D.Y (SizePrefs.Max (LayoutData.Size tr)) ->
  Vec2D.Y (SizePrefs.Max gsz) < 0 ->
  Vec2D.Y (SizePrefs.Max (LayoutData.Size (gatherRowMax tr gsz))) = -1.
Proof.
  intros Ht Hc. unfold gatherRowMax.
  apply Qle_bool_iff in Ht. rewrite Ht.
  now rewrite (f_lt_intro _ _ Hc).
Qed.

(** A row track that stretches is left as it is by every later cell. *)
Lemma gatherRowMax_stays (tr : LayoutData.t) (gsz : SizePrefs.t) :
  Vec2D.Y (SizePrefs.Max (LayoutData.Size tr)) < 0 ->
  gatherRowMax tr gsz = tr.
Proof.
  intros Ht. unfold gatherRowMax.
  destruct (Qle_bool 0 _) eqn:E; [| reflexivity].
  apply Qle_bool_iff in E. lra.
Qed.

(** A column track keeps its Max.X when the cell's Max.X is negative and the
    cell's Max.Y is not: the stretch test of the column reads Max.Y. *)
Lemma gatherColMax_reads_Y (tr : LayoutData.t) (gsz : SizePrefs.t) :
  0 <= Vec2D.X (SizePrefs.Max (LayoutData.Size tr)) ->
  Vec2D.X (SizePrefs.Max gsz) < 0 ->
  0 <= Vec2D.Y (SizePrefs.Max gsz) ->
  Vec2D.X (SizePrefs.Max (LayoutData.Size (gatherColMax tr gsz)))
  = Vec2D.X (SizePrefs.Max (LayoutData.Size tr)).
Proof.
  intros Ht Hx Hy. unfold gatherColMax.
  apply Qle_bool_iff in Ht. rewrite Ht.
  rewrite (f_lt_intro_false _ _ Hy).
  destruct tr as [[n p [mx my]] mg gp gs al ap apr apo]. cbn in *.
  unfold math_Max. destruct (Qle_bool mx _) eqn:E; [| reflexivity].
  apply Qle_bool_iff in E. apply Qle_bool_iff in Ht. lra.
Qed.

(** C3 at its failing input. In a grid of one cell whose Max is (-1, 0), the
    column track ends the gather pass with Max.X = 0, not -1; and in a grid of
    one cell whose Max is (0, -1), no cell has Max.X < 0 and yet the column
    track ends with Max.X = -1.  The row track of the second grid has
    Max.Y = -1, as the rule says. *)
Theorem column_track_stretch_reads_Max_Y :
  (exists ly', GatherSizesGrid 1 stretchXGrid = Some ly' /\
               trackMax ly' Col 0 X = Some 0) /\
  (exists ly', GatherSizesGrid 1 stretchYGrid = Some ly' /\
               trackMax ly' Col 0 X = Some (-1) /\
               trackMax ly' Row 0 Y = Some (-1)).
Proof.
  split; eexists; (split; [vm_compute; reflexivity |]).
  - vm_compute. reflexivity.
  - split; vm_compute; reflexivity.
Qed.

(** ** The grid that GatherSizesGrid resolves *)

(** C4 (as amended). In a grid with at least one child and grid style values
    in range, with fuel for one turn of the row loop per child: cols is the
    largest of the explicit Columns and of Col + ColSpan over the children
    with Col > 0 and, when that is 0, the integer part of sqrt(childCount);
    rows starts from the largest Row + RowSpan over the children with Row > 0
    or, when that is 0, from childCount / cols, and ends as the first number
    from there on with rows * cols >= childCount.  GridSize is (cols, rows),
    and the pass completes when every explicit position comes with a span. *)
Theorem grid_dimensions (ly : Layout.t) (fuel : nat) :
  let kids := Layout.Kids ly in
  let sz := len kids in
  let c0 := maxOf (LayoutStyle.Columns (Style.Layout (Layout.Style ly)))
                  (extents LayoutStyle.Col LayoutStyle.ColSpan kids) in
  let r0 := maxOf 0 (extents LayoutStyle.Row LayoutStyle.RowSpan kids) in
  let cols := if (c0 =? 0)%Z then Z.sqrt sz else c0 in
  let rows0 := if (r0 =? 0)%Z then Z.quot sz cols else r0 in
  kids <> [] ->
  gridStyleInRange ly ->
  (length kids <= fuel)%nat ->
  exists rows,
    gridDims fuel ly = Some (cols, rows) /\
    (rows0 <= rows /\ sz <= rows * cols /\
     (rows = rows0 \/ (rows - 1) * cols < sz))%Z /\
    (forall ly', GatherSizesGrid fuel ly = Some ly' ->
                 Layout.GridSize ly' = Point.New cols rows) /\
    (spansGiven kids -> exists ly', GatherSizesGrid fuel ly = Some ly').
Proof.
  intros kids sz c0 r0 cols rows0 Hkids Hrange Hfuel.
  destruct (gridDims_resolved ly fuel Hkids Hrange Hfuel)
    as (rows & Hdims & Hrows & _).
  exists rows. split; [exact Hdims |]. split; [exact Hrows |]. split.
  - intros ly' Hrun. unfold GatherSizesGrid in Hrun.
    fold kids in Hrun. rewrite (len_0_cons _ Hkids) in Hrun.
    rewrite Hdims in Hrun. cbn in Hrun.
    apply bind_Some in Hrun as (gr & _ & Hrun).
    apply bind_Some in Hrun as (gc & _ & Hrun).
    apply bind_Some in Hrun as ([[k gr'] gc'] & _ & Hrun).
    injection Hrun as <-. reflexivity.
  - intros Hspans. now apply GatherSizesGrid_completes.
Qed.

(** [round_sqrt n] is the integer nearest to the square root of [n]. *)
Lemma round_sqrt_nearest (n : Z) :
  (1 <= n)%Z ->
  ((2 * round_sqrt n - 1) ^ 2 <= 4 * n < (2 * round_sqrt n + 1) ^ 2)%Z.
Proof.
  intros Hn. unfold round_sqrt.
  assert (H0 : (0 <= n)%Z) by lia.
  pose proof (Z.sqrt_spec n H0) as Hs. cbv zeta in Hs. unfold Z.succ in Hs.
  pose proof (Z.sqrt_nonneg n) as Hp.
  generalize dependent (Z.sqrt n). intros s Hs Hp.
  destruct (n - s * s <=? s)%Z eqn:E.
  - apply Z.leb_le in E. nia.
  - apply Z.leb_gt in E. nia.
Qed.

(** Columns = 3 and 7 children: the grid is 3 by 3. *)
Lemma grid_dimensions_witness :
  gridDims 7 sevenCellGrid = Some (3, 3)%Z /\
  Layout.GridSize <$> GatherSizesGrid 7 sevenCellGrid = Some (Point.New 3 3).
Proof.
  assert (Hkids : Layout.Kids sevenCellGrid <> []) by (cbn; discriminate).
  assert (Hrange : gridStyleInRange sevenCellGrid).
  { split; [z_closed |]. split; [z_closed |].
    intros c gi Hin Hc. cbn in Hin.
    repeat (destruct Hin as [<- | Hin];
            [cbn in Hc; injection Hc as <-; z_closed |]).
    contradiction. }
  assert (Hfuel : (length (Layout.Kids sevenCellGrid) <= 7)%nat) by (cbn; lia).
  destruct (grid_dimensions sevenCellGrid 7 Hkids Hrange Hfuel)
    as (rows & Hdims & _ & Hsize & Hcompletes).
  assert (Hrows : rows = 3%Z).
  { assert (H : gridDims 7 sevenCellGrid = Some (3, 3)%Z)
      by (vm_compute; reflexivity).
    rewrite H in Hdims. now injection Hdims as <-. }
  subst rows. split; [exact Hdims |].
  destruct Hcompletes as [ly' Hly'].
  { intros c gi Hin Hc. cbn in Hin.
    repeat (destruct Hin as [<- | Hin];
            [cbn in Hc; injection Hc as <-; cbn; lia |]).
    contradiction. }
  rewrite Hly'. cbn. f_equal. exact (Hsize ly' Hly').
Defined.

(** C4 as stated fails twice.  Three children and nothing specified give 1
    column (the integer part of sqrt 3), where round(sqrt 3) is 2; and with
    Columns = 3 a child at column 5 with span 1 makes 6 columns. *)
Lemma grid_dimensions_counterexample :
  (gridDims 3 threeCellGrid = Some (1, 3)%Z /\
   claimedCols threeCellGrid = 2%Z) /\
  (gridDims 1 wideCellGrid = Some (6, 1)%Z /\
   claimedCols wideCellGrid = 3%Z).
Proof. repeat split; vm_compute; reflexivity. Qed.

(** ** LayoutAll *)

Lemma Dim_SetDim (a : Vec2D.t) (d : Dims2D) (val : float64) :
  Dim (SetDim a d val) d = val.
Proof. now destruct d. Qed.

Lemma f_div_defined (a b : Q) : ~ b == 0 -> f_div a b = Some (a / b).
Proof.
  intros H. unfold f_div, f_eq.
  destruct (Qeq_bool b 0) eqn:E; [| reflexivity].
  apply Qeq_bool_iff in E. contradiction.
Qed.

(** The arranging loop returns when every child has a size, and the child at
    an index then leaves it with the size that [LayoutAll_size] gives it. *)
Lemma LayoutAll_kids_returns (dim : Dims2D) (p : Plan.t) (kids : list Ki) :
  (forall sp, In sp (kidSizes kids) ->
     exists size, LayoutAll_size dim p sp = Some size) ->
  forall (j : Z) (pos : float64),
    exists kids',
      LayoutAll_kids dim p kids j pos = Some kids' /\
      forall (i : nat) (c : Ki) (gi : Node2DBase.t),
        kids !! i = Some c -> KiToNode2D c = Some gi ->
        exists gi',
          kids' !! i = Some (KiNode2D gi') /\
          Some (Dim (LayoutData.AllocSize (Node2DBase.LayData gi')) dim)
          = LayoutAll_size dim p (LayoutData.Size (Node2DBase.LayData gi)).
Proof.
  induction kids as [| k kids IH]; intros Hsizes j pos;
    cbn [LayoutAll_kids].
  - exists []. split; [reflexivity |]. intros i c gi Hi. discriminate.
  - destruct k as [gk | nm]; cbn [KiToNode2D].
    + destruct (Hsizes (LayoutData.Size (Node2DBase.LayData gk)))
        as [size Hsize]; [unfold kidSizes; cbn; now left |].
      rewrite Hsize. cbn [mbind option_bind].
      match goal with
      | |- context [LayoutAll_kids dim p kids ?j' ?pos'] =>
          destruct (IH ltac:(intros sp Hsp; apply Hsizes; unfold kidSizes in *;
                             cbn; now right) j' pos')
            as (rest & Hrest & Hat)
      end.
      rewrite Hrest. cbn [mbind option_bind].
      eexists. split; [reflexivity |].
      intros [| i] c gi Hi Hc; cbn [lookup list_lookup] in Hi |- *.
      * injection Hi as <-. cbn in Hc. injection Hc as <-.
        eexists. split; [reflexivity |]. cbn. now rewrite Dim_SetDim.
      * exact (Hat i c gi Hi Hc).
    + destruct (IH ltac:(intros sp Hsp; apply Hsizes; exact Hsp) (j + 1)%Z pos)
        as (rest & Hrest & Hat).
      rewrite Hrest. cbn [mbind option_bind].
      eexists. split; [reflexivity |].
      intros [| i] c gi Hi Hc; cbn [lookup list_lookup] in Hi |- *.
      * injection Hi as <-. discriminate.
      * exact (Hat i c gi Hi Hc).
Qed.

(** LayoutAll returns when every child has a size, and what it allocates to
    the child at an index is that size. *)
Lemma LayoutAll_returns (dim : Dims2D) (ly : Layout.t) :
  (forall sp, In sp (kidSizes (Layout.Kids ly)) ->
     exists size, LayoutAll_size dim (LayoutAll_plan dim ly) sp = Some size) ->
  exists ly',
    LayoutAll dim ly = Some ly' /\
    forall (i : nat) (sp : SizePrefs.t),
      childSize ly i = Some sp ->
      childAllocSize ly' i dim
      = LayoutAll_size dim (LayoutAll_plan dim ly) sp.
Proof.
  intros Hsizes. unfold LayoutAll.
  destruct (len (Layout.Kids ly) =? 0)%Z eqn:E.
  - exists ly. split; [reflexivity |]. intros i sp H.
    apply len_0_nil in E. unfold childSize in H. rewrite E in H. discriminate.
  - destruct (LayoutAll_kids_returns dim (LayoutAll_plan dim ly)
                (Layout.Kids ly) Hsizes 0%Z (Plan.pos (LayoutAll_plan dim ly)))
      as (kids' & Hkids & Hat).
    rewrite Hkids. cbn [mbind option_bind].
    eexists. split; [reflexivity |].
    intros i sp H. unfold childSize in H.
    apply bind_Some in H as (c & Hc & H).
    apply bind_Some in H as (gi & Hgi & H). injection H as <-.
    destruct (Hat i c gi Hc Hgi) as (gi' & Hl & Hs).
    unfold childAllocSize. cbn [Layout.Kids Layout.with_Kids].
    rewrite Hl. cbn. exact Hs.
Qed.

(** The counting loop, from any start: the total is the sum over the
    candidates, the count grows by one for each of them. *)
Lemma countStretch_from (test : SizePrefs.t -> bool) (dim : Dims2D)
    (kids : list Ki) :
  forall acc : Z * float64,
    let step := fun (acc : Z * float64) c =>
       match KiToNode2D c with
       | None => acc
       | Some gi =>
           let sp := LayoutData.Size (Node2DBase.LayData gi) in
           if test sp
           then ((fst acc + 1)%Z, snd acc + Dim (SizePrefs.Pref sp) dim)
           else acc
       end in
    fold_left step kids acc
    = ((fst acc + len (List.filter test (kidSizes kids)))%Z,
       fold_left Qplus
         (map (fun sp => Dim (SizePrefs.Pref sp) dim)
              (List.filter test (kidSizes kids)))
         (snd acc)).
Proof.
  induction kids as [| c kids IH]; intros [n tot] step; cbn.
  - f_equal. unfold len. cbn. lia.
  - subst step. cbn in IH. rewrite IH. unfold kidSizes. cbn.
    destruct c as [gi | nm]; cbn.
    + destruct (test _); cbn; [| reflexivity].
      f_equal. unfold len. cbn. lia.
    + reflexivity.
Qed.

Lemma countStretch_spec (test : SizePrefs.t -> bool) (dim : Dims2D)
    (kids : list Ki) :
  countStretch test dim kids
  = (len (List.filter test (kidSizes kids)), sumPrefOf test dim kids).
Proof.
  unfold countStretch. rewrite countStretch_from. reflexivity.
Qed.

Lemma childSize_kidSizes (ly : Layout.t) (i : nat) (sp : SizePrefs.t) :
  childSize ly i = Some sp -> In sp (kidSizes (Layout.Kids ly)).
Proof.
  unfold childSize. intros H.
  apply bind_Some in H as (c & Hc & H).
  apply bind_Some in H as (gi & Hgi & H). injection H as <-.
  revert i Hc. induction (Layout.Kids ly) as [| k kids IH]; intros i Hc.
  - discriminate.
  - destruct i as [| i]; cbn in Hc.
    + injection Hc as ->. unfold kidSizes. cbn. rewrite Hgi. cbn. now left.
    + specialize (IH i Hc). unfold kidSizes in *. cbn.
      destruct (KiToNode2D k); cbn; [right |]; exact IH.
Qed.

Lemma candidate_counted (test : SizePrefs.t -> bool) (l : list SizePrefs.t)
    (sp : SizePrefs.t) :
  In sp l -> test sp = true -> (0 <? len (List.filter test l))%Z = true.
Proof.
  intros Hin Ht. apply Z.ltb_lt.
  assert (H : In sp (List.filter test l)) by (apply filter_In; auto).
  unfold len. destruct (List.filter test l); [contradiction | cbn; lia].
Qed.

Lemma counted_candidates {A : Type} (l : list A) :
  (0 <? len l)%Z = true -> l <> [].
Proof. intros H ->. discriminate. Qed.

(** The tests of the two counting loops, written out. *)
Lemma isStretchMax_maxNegative (dim : Dims2D) (sp : SizePrefs.t) :
  isStretchMax dim sp = maxNegative dim sp.
Proof. reflexivity. Qed.

Lemma isStretchNeed_maxNegativeOrRoom (dim : Dims2D) (sp : SizePrefs.t) :
  isStretchNeed dim sp = maxNegativeOrRoom dim sp.
Proof. reflexivity. Qed.

Lemma maxNegative_true (dim : Dims2D) (sp : SizePrefs.t) :
  Dim (SizePrefs.Max sp) dim < 0 -> maxNegative dim sp = true.
Proof. intros H. apply (f_lt_intro _ _ H). Qed.

Lemma maxNegative_false (dim : Dims2D) (sp : SizePrefs.t) :
  0 <= Dim (SizePrefs.Max sp) dim -> maxNegative dim sp = false.
Proof. intros H. apply (f_lt_intro_false _ _ H). Qed.


(** The plan when the container's Pref fits with room to spare. *)
Lemma LayoutAll_plan_pref (dim : Dims2D) (ly : Layout.t) :
  0 < availAlong ly dim - prefAlong ly dim ->
  let p := LayoutAll_plan dim ly in
  Plan.usePref p = true /\
  Plan.extra p = availAlong ly dim - prefAlong ly dim /\
  Plan.stretchNeed p = false /\
  Plan.stretchMax p
  = (0 <? len (List.filter (maxNegative dim) (kidSizes (Layout.Kids ly))))%Z /\
  Plan.stretchTot p = sumPrefOf (maxNegative dim) dim (Layout.Kids ly).
Proof.
  intros H p. subst p. unfold LayoutAll_plan.
  fold (availAlong ly dim). fold (prefAlong ly dim).
  rewrite f_lt_intro_false by lra. rewrite (math_Max_pos _ H).
  rewrite (f_lt_intro _ _ H). cbn [andb].
  rewrite countStretch_spec.
  destruct (_ && _ && _ && _ && _)%bool; destruct (IsAlignEnd _ && _ && _)%bool;
    cbn; repeat split; reflexivity.
Qed.


(** C1. When the container's Pref along the flow axis leaves extra > 0 (so
    that the Pref baseline is used) and the Pref of the children with Max < 0
    on that axis, if there are any, do not add up to 0, LayoutAll returns and
    the child at any index that is a 2D node is allocated: its Pref plus
    extra * (own Pref / sum of the Pref of the children with Max < 0) when its
    own Max on that axis is < 0, and its Pref alone when its Max is >= 0. *)
Theorem stretch_in_proportion_to_pref (ly : Layout.t) (dim : Dims2D) (i : nat)
    (sp : SizePrefs.t) :
  let extra := availAlong ly dim - prefAlong ly dim in
  let total := sumPrefOf (maxNegative dim) dim (Layout.Kids ly) in
  0 < extra ->
  sharesDefined (maxNegative dim) dim (Layout.Kids ly) ->
  childSize ly i = Some sp ->
  exists ly' size,
    LayoutAll dim ly = Some ly' /\
    childAllocSize ly' i dim = Some size /\
    (Dim (SizePrefs.Max sp) dim < 0 ->
     size = Dim (SizePrefs.Pref sp) dim
            + extra * (Dim (SizePrefs.Pref sp) dim / total)) /\
    (0 <= Dim (SizePrefs.Max sp) dim -> size = Dim (SizePrefs.Pref sp) dim).
Proof.
  intros extra total Hextra Hdef Hsp.
  destruct (LayoutAll_plan_pref dim ly Hextra) as (Hu & He & Hn & Hm & Ht).
  assert (Hsize : forall sp',
    LayoutAll_size dim (LayoutAll_plan dim ly) sp'
    = if maxNegative dim sp'
      then if (0 <? len (List.filter (maxNegative dim)
                                     (kidSizes (Layout.Kids ly))))%Z
           then Some (Dim (SizePrefs.Pref sp') dim
                      + extra * (Dim (SizePrefs.Pref sp') dim / total))
           else Some (Dim (SizePrefs.Pref sp') dim)
      else Some (Dim (SizePrefs.Pref sp') dim)).
  { intros sp'. unfold LayoutAll_size. rewrite Hu, He, Hn, Hm, Ht.
    change (HasMaxStretch sp' dim) with (maxNegative dim sp').
    destruct (0 <? _)%Z eqn:En; [| now destruct (maxNegative dim sp')].
    destruct (maxNegative dim sp'); [| reflexivity].
    rewrite (f_div_defined _ _ (Hdef (counted_candidates _ En))).
    reflexivity. }
  destruct (LayoutAll_returns dim ly) as (ly' & Hly & Hat).
  { intros sp' _. rewrite Hsize.
    destruct (maxNegative dim sp'); [destruct (0 <? _)%Z |]; now eexists. }
  specialize (Hat i sp Hsp). rewrite Hsize in Hat.
  destruct (Qlt_le_dec (Dim (SizePrefs.Max sp) dim) 0) as [Hneg | Hpos].
  - rewrite (maxNegative_true _ _ Hneg) in Hat.
    rewrite (candidate_counted (maxNegative dim) _ sp
               (childSize_kidSizes ly i sp Hsp) (maxNegative_true _ _ Hneg))
      in Hat.
    eexists. eexists. split; [exact Hly |]. split; [exact Hat |].
    split; [reflexivity |]. intros H. lra.
  - rewrite (maxNegative_false _ _ Hpos) in Hat.
    eexists. eexists. split; [exact Hly |]. split; [exact Hat |].
    split; [intros H; lra | reflexivity].
Qed.

(** Two children with Max.X = -1 and preferred widths 10 and 30 and a third
    with Max.X = 0 and width 20, extra = 40: the first receives 10 more than
    its Pref, the second 30 more, the third nothing. *)
Lemma stretch_in_proportion_to_pref_witness :
  availAlong stretchRow X - prefAlong stretchRow X == 40 /\
  exists ly',
    LayoutAll X stretchRow = Some ly' /\
    (exists w, childAllocSize ly' 0 X = Some w /\ w - 10 == 10) /\
    (exists w, childAllocSize ly' 1 X = Some w /\ w - 30 == 30) /\
    (exists w, childAllocSize ly' 2 X = Some w /\ w - 20 == 0).
Proof.
  assert (H : 0 < availAlong stretchRow X - prefAlong stretchRow X)
    by (vm_compute; reflexivity).
  assert (Hdef : sharesDefined (maxNegative X) X (Layout.Kids stretchRow))
    by (intros _; vm_compute; discriminate).
  split; [vm_compute; reflexivity |].
  destruct (stretch_in_proportion_to_pref stretchRow X 0 _ H Hdef eq_refl)
    as (ly0 & w0 & Hly0 & Hw0 & Hneg0 & _).
  destruct (stretch_in_proportion_to_pref stretchRow X 1 _ H Hdef eq_refl)
    as (ly1 & w1 & Hly1 & Hw1 & Hneg1 & _).
  destruct (stretch_in_proportion_to_pref stretchRow X 2 _ H Hdef eq_refl)
    as (ly2 & w2 & Hly2 & Hw2 & _ & Hpos2).
  assert (E1 : ly1 = ly0) by congruence.
  assert (E2 : ly2 = ly0) by congruence.
  subst ly1 ly2.
  exists ly0. split; [exact Hly0 |]. split; [| split].
  - exists w0. split; [exact Hw0 |].
    rewrite Hneg0 by (vm_compute; reflexivity). vm_compute. reflexivity.
  - exists w1. split; [exact Hw1 |].
    rewrite Hneg1 by (vm_compute; reflexivity). vm_compute. reflexivity.
  - exists w2. split; [exact Hw2 |].
    rewrite Hpos2 by (vm_compute; discriminate). vm_compute. reflexivity.
Defined.







(** ** Splits *)

Lemma sum_from (l : list Q) :
  forall acc, fold_left Qplus l acc == acc + fold_left Qplus l 0.
Proof.
  induction l as [| x l IH]; intros acc; cbn; [lra |].
  rewrite (IH (acc + x)), (IH (0 + x)). lra.
Qed.

Lemma sumSplits_cons (x : Q) (l : list Q) :
  sumSplits (x :: l) == x + sumSplits l.
Proof. unfold sumSplits. cbn. rewrite sum_from. lra. Qed.

Lemma sumSplits_scaled (c : Q) (l : list Q) :
  sumSplits (map (fun sp => sp * c) l) == sumSplits l * c.
Proof.
  induction l as [| x l IH]; [unfold sumSplits; cbn; lra |].
  cbn [map]. rewrite !sumSplits_cons, IH. lra.
Qed.

Lemma sumSplits_const (c : Q) {A : Type} (l : list A) :
  sumSplits (map (fun _ => c) l) == inject_Z (len l) * c.
Proof.
  induction l as [| x l IH].
  { change (0 == 0 * c). lra. }
  cbn [map]. rewrite sumSplits_cons, IH. unfold len. cbn [length].
  rewrite Nat2Z.inj_succ. unfold Z.succ. rewrite inject_Z_plus.
  change (inject_Z 1) with 1. ring.
Qed.

Lemma sumSplits_zeros (n : nat) : sumSplits (replicate n 0) == 0.
Proof.
  induction n as [| n IH]; [reflexivity |].
  cbn [replicate]. rewrite sumSplits_cons, IH. lra.
Qed.

Lemma len_pos_inject {A : Type} (l : list A) :
  l <> [] -> 0 < inject_Z (len l).
Proof.
  intros H. unfold len. destruct l; [congruence |].
  replace 0 with (inject_Z 0) by reflexivity. rewrite <- Zlt_Qlt.
  cbn [length]. lia.
Qed.

Lemma to_nat_len {A : Type} (l : list A) : Z.to_nat (len l) = length l.
Proof. unfold len. apply Nat2Z.id. Qed.

(** What UpdateSplits starts from: the splits when there is one per child,
    else zeros. *)
Lemma UpdateSplits_cases (g : SplitView.t) :
  SplitView.Kids g <> [] ->
  let n := length (SplitView.Kids g) in
  let s0 := if (len (SplitView.Splits g) =? len (SplitView.Kids g))%Z
            then SplitView.Splits g else replicate n 0 in
  length s0 = n /\
  ((sumSplits s0 == 0 /\
    SplitView.Splits (UpdateSplits g)
    = map (fun sp => sp * (1 / 1))
          (map (fun _ => 1 / inject_Z (len (SplitView.Kids g))) s0)) \/
   (~ sumSplits s0 == 0 /\
    SplitView.Splits (UpdateSplits g)
    = map (fun sp => sp * (1 / sumSplits s0)) s0)).
Proof.
  intros Hkids n s0. split.
  - subst s0. destruct (_ =? _)%Z eqn:E.
    + apply Z.eqb_eq in E. unfold len in E. lia.
    + subst n. now rewrite length_replicate.
  - unfold UpdateSplits. rewrite (len_0_cons _ Hkids).
    rewrite to_nat_len. fold n. fold s0.
    unfold f_eq. destruct (Qeq_bool (sumSplits s0) 0) eqn:E.
    + left. apply Qeq_bool_iff in E. split; [exact E | reflexivity].
    + right. split; [| reflexivity].
      intros H. apply Qeq_bool_iff in H. congruence.
Qed.

Lemma even_shares (c : Q) (l : list Q) :
  Forall (fun sp => sp == c) (map (fun sp => sp * (1 / 1)) (map (fun _ => c) l)).
Proof.
  induction l as [| x l IH]; cbn [map]; constructor; [field | exact IH].
Qed.

Lemma scaled_shares (s : Q) (l : list Q) :
  ~ s == 0 ->
  Forall2 (fun sp' sp => sp' == sp / s) (map (fun sp => sp * (1 / s)) l) l.
Proof.
  intros Hs. induction l as [| x l IH]; cbn [map]; constructor;
    [field; exact Hs | exact IH].
Qed.

(** C6 (as amended). For a SplitView with at least one child, UpdateSplits
    leaves one split per child and the splits add up to 1.  When Splits had
    another length than the number of children it is replaced by zeros (no
    earlier share is kept), and then, as whenever the sum is 0, every split
    becomes the equal share 1/N; otherwise every split is divided by the
    sum. *)
Theorem UpdateSplits_normalizes (g : SplitView.t) :
  SplitView.Kids g <> [] ->
  let n := length (SplitView.Kids g) in
  let s := SplitView.Splits g in
  let s' := SplitView.Splits (UpdateSplits g) in
  length s' = n /\
  sumSplits s' == 1 /\
  (length s <> n \/ sumSplits s == 0 ->
   Forall (fun sp => sp == 1 / inject_Z (Z.of_nat n)) s') /\
  (length s = n -> ~ sumSplits s == 0 ->
   Forall2 (fun sp' sp => sp' == sp / sumSplits s) s' s).
Proof.
  intros Hkids n s s'.
  destruct (UpdateSplits_cases g Hkids) as [Hlen Hcases].
  fold n s s' in Hlen, Hcases.
  pose proof (len_pos_inject _ Hkids) as Hn.
  set (s0 := if (len s =? len (SplitView.Kids g))%Z then s else replicate n 0)
    in Hlen, Hcases.
  assert (Hs0 : length s = n -> s0 = s).
  { intros H. subst s0. unfold len. rewrite H. fold n.
    now rewrite Z.eqb_refl. }
  assert (Hz0 : length s <> n -> s0 = replicate n 0).
  { intros H. subst s0. destruct (_ =? _)%Z eqn:E; [| reflexivity].
    apply Z.eqb_eq in E. unfold len in E. lia. }
  destruct Hcases as [[Hsum Hs'] | [Hsum Hs']]; rewrite Hs';
    repeat split.
  - now rewrite !length_map.
  - rewrite sumSplits_scaled, sumSplits_const.
    assert (E : len s0 = len (SplitView.Kids g)) by (unfold len; now rewrite Hlen).
    rewrite E. field. lra.
  - intros _. apply even_shares.
  - intros Hl Hnz. rewrite (Hs0 Hl) in Hsum. contradiction.
  - now rewrite length_map.
  - rewrite sumSplits_scaled. field. exact Hsum.
  - intros [Hl | Hz].
    + rewrite (Hz0 Hl) in Hsum. destruct Hsum. apply sumSplits_zeros.
    + destruct (Nat.eq_dec (length s) n) as [Hl | Hl].
      * rewrite (Hs0 Hl) in Hsum. contradiction.
      * rewrite (Hz0 Hl) in Hsum. destruct Hsum. apply sumSplits_zeros.
  - intros Hl Hnz. rewrite (Hs0 Hl). now apply scaled_shares.
Qed.

(** Three children and two splits of 2 and 6: three equal shares. *)
Lemma UpdateSplits_normalizes_witness :
  sumSplits (SplitView.Splits (UpdateSplits (splitView 3 [2; 6]))) == 1 /\
  Forall (fun sp => sp == 1 / inject_Z 3)
         (SplitView.Splits (UpdateSplits (splitView 3 [2; 6]))).
Proof.
  assert (Hkids : SplitView.Kids (splitView 3 [2; 6]) <> [])
    by (cbn; discriminate).
  destruct (UpdateSplits_normalizes (splitView 3 [2; 6]) Hkids)
    as (_ & Hsum & Heven & _).
  split; [exact Hsum |].
  apply Heven. left. cbn. lia.
Defined.

(** C6 as stated fails where the length changes: with three children and the
    splits (2, 6), keeping the shares would give (1/4, 3/4, 0); the code
    gives three equal shares. *)
Lemma UpdateSplits_normalizes_counterexample :
  Forall2 Qeq (claimedUpdateSplits (splitView 3 [2; 6])) [1 # 4; 3 # 4; 0] /\
  Forall2 Qeq (SplitView.Splits (UpdateSplits (splitView 3 [2; 6])))
          [1 # 3; 1 # 3; 1 # 3] /\
  ~ Forall2 Qeq (SplitView.Splits (UpdateSplits (splitView 3 [2; 6])))
            (claimedUpdateSplits (splitView 3 [2; 6])).
Proof.
  repeat split.
  - vm_compute. repeat constructor.
  - vm_compute. repeat constructor.
  - intros H. vm_compute in H. inversion H as [| ? ? ? ? Hhd _]; subst.
    vm_compute in Hhd. discriminate.
Qed.

Lemma index_nat {A : Type} (s : list A) (i : nat) :
  index s (Z.of_nat i) = s !! i.
Proof.
  unfold index. destruct (Z.of_nat i <? 0)%Z eqn:E.
  - apply Z.ltb_lt in E. lia.
  - now rewrite Nat2Z.id.
Qed.

Lemma set_index_nat {A : Type} (s : list A) (i : nat) (x : A) :
  (i < length s)%nat -> set_index s (Z.of_nat i) x = Some (<[i := x]> s).
Proof.
  intros H. unfold set_index, len.
  replace (0 <=? Z.of_nat i)%Z with true by (symmetry; apply Z.leb_le; lia).
  replace (Z.of_nat i <? Z.of_nat (length s))%Z with true
    by (symmetry; apply Z.ltb_lt; lia).
  cbn. now rewrite Nat2Z.id.
Qed.

(** The copying loop, [n] turns from index [i], within both slices: the
    entries [i .. i+n) of [dst] become those of [src]. *)
Lemma copySplits_spec (src : list float64) (n : nat) :
  forall (i : nat) (dst : list float64),
    (i + n <= length src)%nat -> (i + n <= length dst)%nat ->
    copySplits n (Z.of_nat i) dst src
    = Some (take i dst ++ take n (drop i src) ++ drop (i + n) dst).
Proof.
  induction n as [| n IH]; intros i dst Hsrc Hdst; cbn [copySplits].
  - rewrite Nat.add_0_r.
    change (take 0 (drop i src)) with (@nil float64).
    cbn [app]. now rewrite take_drop.
  - rewrite index_nat.
    destruct (src !! i) as [v |] eqn:Hv;
      [| apply lookup_ge_None in Hv; lia].
    cbn. rewrite set_index_nat by lia. cbn.
    replace (Z.of_nat i + 1)%Z with (Z.of_nat (S i)) by lia.
    rewrite IH by (rewrite ?length_insert; lia).
    f_equal.
    rewrite (take_S_r (<[i:=v]> dst) i v)
      by (apply list_lookup_insert_eq; lia).
    rewrite take_insert_ge by lia.
    rewrite drop_insert_lt by lia.
    rewrite (drop_S src v i Hv). cbn [take].
    rewrite <- app_assoc. cbn. repeat f_equal. lia.
Qed.

Lemma copySplits_all (src dst : list float64) :
  length dst = length src ->
  copySplits (length src) 0 dst src = Some src.
Proof.
  intros H. change 0%Z with (Z.of_nat 0).
  rewrite (copySplits_spec src (length src) 0 dst) by (cbn; lia).
  cbn [Nat.add]. rewrite (drop_ge dst) by lia.
  cbn [firstn skipn app]. rewrite firstn_all. now rewrite app_nil_r.
Qed.




Lemma UpdateSplits_length (g : SplitView.t) :
  length (SplitView.Splits g) = length (SplitView.Kids g) ->
  length (SplitView.Splits (UpdateSplits g)) = length (SplitView.Kids g).
Proof.
  intros H. unfold UpdateSplits.
  destruct (len (SplitView.Kids g) =? 0)%Z; [exact H |].
  unfold len. rewrite H, Z.eqb_refl.
  destruct (f_eq _ 0); cbn; now rewrite ?length_map.
Qed.

(** SaveSplits copies the splits. *)
Lemma SaveSplits_spec (g : SplitView.t) :
  SplitView.Splits g <> [] ->
  SaveSplits g = Some (SplitView.with_SavedSplits g (Some (SplitView.Splits g))).
Proof.
  intros H. unfold SaveSplits. rewrite (len_0_cons _ H).
  rewrite copySplits_all; [reflexivity |].
  destruct (SplitView.SavedSplits g) as [s |].
  - destruct (len s =? _)%Z eqn:E.
    + apply Z.eqb_eq in E. unfold len in E. lia.
    + now rewrite length_replicate, to_nat_len.
  - now rewrite length_replicate, to_nat_len.
Qed.








(** ** Requests by index *)

Lemma SaveSplits_frame (g g0 : SplitView.t) :
  SaveSplits g = Some g0 ->
  SplitView.Kids g0 = SplitView.Kids g /\
  SplitView.Splits g0 = SplitView.Splits g.
Proof.
  unfold SaveSplits. destruct (len (SplitView.Splits g) =? 0)%Z.
  - now intros [= <-].
  - intros H. apply bind_Some in H as (s & _ & [= <-]). easy.
Qed.

Lemma maybe_save_frame (save : bool) (g g0 : SplitView.t) :
  (if save then SaveSplits g else Some g) = Some g0 ->
  SplitView.Kids g0 = SplitView.Kids g /\
  SplitView.Splits g0 = SplitView.Splits g.
Proof.
  destruct save; [apply SaveSplits_frame | now intros [= <-]].
Qed.

Lemma maybe_save_ok (save : bool) (g : SplitView.t) :
  SplitView.Splits g <> [] ->
  exists g0, (if save then SaveSplits g else Some g) = Some g0.
Proof.
  intros H. destruct save; [| now exists g].
  rewrite (SaveSplits_spec g H). now eexists.
Qed.

(** C8 (as amended). ShowChildAtIndex with an index outside the children
    returns an error and leaves the layout, StackTop included, as it is; with
    an index of the children it sets StackTop to the child at that index and
    returns no error.  CollapseChild has no error to return: an index outside
    [0, child count) is skipped, the call being the one without that index;
    an index in range, when there is one split per child, has its split set
    to 0 before the splits are normalized, so that the split ends at 0, or at
    the equal share 1/N when nothing else is left. *)
Theorem index_requests (ly : Layout.t) (idx : Z) (g : SplitView.t)
    (save : bool) (k : Z) :
  (~ (0 <= idx < len (Layout.Kids ly))%Z ->
   exists e, ShowChildAtIndex ly idx = (ly, Some e)) /\
  ((0 <= idx < len (Layout.Kids ly))%Z ->
   exists c, Layout.Kids ly !! Z.to_nat idx = Some c /\
             ShowChildAtIndex ly idx
             = (Layout.with_StackTop ly (Some c), None)) /\
  (~ (0 <= k < len (SplitView.Kids g))%Z ->
   forall idxs, CollapseChild g save (k :: idxs) = CollapseChild g save idxs) /\
  (length (SplitView.Splits g) = length (SplitView.Kids g) ->
   (0 <= k < len (SplitView.Kids g))%Z ->
   let zeroed := <[Z.to_nat k := 0]> (SplitView.Splits g) in
   exists g' s,
     CollapseChild g save [k] = Some g' /\
     index (SplitView.Splits g') k = Some s /\
     (~ sumSplits zeroed == 0 -> s == 0) /\
     (sumSplits zeroed == 0 -> s == 1 / inject_Z (len (SplitView.Kids g)))).
Proof.
  split; [| split; [| split]].
  - intros Hout. unfold ShowChildAtIndex, ValidIndex.
    replace ((0 <=? idx)%Z && (idx <? len (Layout.Kids ly))%Z)%bool with false.
    { now eexists. }
    symmetry. apply andb_false_iff.
    destruct (Z.leb_spec 0 idx); [right | now left].
    apply Z.ltb_ge. lia.
  - intros Hin. unfold ShowChildAtIndex, ValidIndex.
    replace ((0 <=? idx)%Z && (idx <? len (Layout.Kids ly))%Z)%bool with true
      by (symmetry; apply andb_true_iff; split;
          [apply Z.leb_le | apply Z.ltb_lt]; lia).
    destruct (index_ok (Layout.Kids ly) idx Hin) as [c Hc].
    exists c. split.
    + unfold index in Hc.
      replace (idx <? 0)%Z with false in Hc
        by (symmetry; apply Z.ltb_ge; lia).
      exact Hc.
    + unfold Child. now rewrite Hc.
  - intros Hout idxs. unfold CollapseChild.
    destruct (if save then SaveSplits g else Some g) as [g0 |] eqn:Hsave;
      [| reflexivity].
    destruct (maybe_save_frame save g g0 Hsave) as [Hk _].
    cbn. rewrite Hk.
    replace ((0 <=? k)%Z && (k <? len (SplitView.Kids g))%Z)%bool with false;
      [reflexivity |].
    symmetry. apply andb_false_iff.
    destruct (Z.leb_spec 0 k); [right | now left].
    apply Z.ltb_ge. lia.
  - intros Hlen Hk zeroed.
    assert (Hne : SplitView.Splits g <> []).
    { intros E. rewrite E in Hlen. unfold len in Hk. cbn in Hlen. lia. }
    assert (Hkids : SplitView.Kids g <> []).
    { intros E. rewrite E in Hk. unfold len in Hk. cbn in Hk. lia. }
    destruct (maybe_save_ok save g Hne) as [g0 Hsave].
    destruct (maybe_save_frame save g g0 Hsave) as [Hk0 Hs0].
    unfold CollapseChild. rewrite Hsave. cbn. rewrite Hk0, Hs0.
    replace ((0 <=? k)%Z && (k <? len (SplitView.Kids g))%Z)%bool with true
      by (symmetry; apply andb_true_iff; split;
          [apply Z.leb_le | apply Z.ltb_lt]; lia).
    unfold set_index.
    replace ((0 <=? k)%Z && (k <? len (SplitView.Splits g))%Z)%bool with true
      by (symmetry; apply andb_true_iff; unfold len in *; split;
          [apply Z.leb_le | apply Z.ltb_lt]; lia).
    cbn. fold zeroed.
    set (ga := SplitView.with_Splits g0 zeroed).
    assert (Hka : SplitView.Kids ga = SplitView.Kids g) by exact Hk0.
    assert (Hkids' : SplitView.Kids ga <> []) by now rewrite Hka.
    assert (Hz : length zeroed = length (SplitView.Kids g))
      by (subst zeroed; now rewrite length_insert).
    assert (Hl : length (SplitView.Splits (UpdateSplits ga))
                 = length (SplitView.Kids g)).
    { rewrite <- Hka. apply UpdateSplits_length. now rewrite Hka. }
    destruct (UpdateSplits_cases ga Hkids') as [_ Hcases].
    cbv zeta in Hcases.
    assert (Es0 : (if (len (SplitView.Splits ga) =? len (SplitView.Kids ga))%Z
                   then SplitView.Splits ga
                   else replicate (length (SplitView.Kids ga)) 0) = zeroed).
    { unfold len. rewrite Hka.
      change (SplitView.Splits ga) with zeroed. now rewrite Hz, Z.eqb_refl. }
    rewrite Es0, Hka in Hcases.
    assert (Hin : (Z.to_nat k < length (SplitView.Splits (UpdateSplits ga)))%nat)
      by (unfold len in Hk; lia).
    destruct (lookup_lt_is_Some_2 _ _ Hin) as [s Hs].
    exists (UpdateSplits ga), s. split; [reflexivity |].
    split.
    { unfold index. replace (k <? 0)%Z with false; [exact Hs |].
      symmetry. apply Z.ltb_ge. lia. }
    split.
    + intros Hnz. destruct Hcases as [[Hzero _] | [_ Hsplits]];
        [contradiction |].
      assert (H0 : zeroed !! Z.to_nat k = Some 0).
      { subst zeroed. apply list_lookup_insert_eq. unfold len in Hk.
        clear - Hlen Hk. lia. }
      rewrite Hsplits in Hs.
      pose proof (Forall2_lookup_lr _ _ _ _ _ _
                    (scaled_shares (sumSplits zeroed) zeroed Hnz) Hs H0) as H.
      cbn in H. rewrite H. field. exact Hnz.
    + intros Hzero. destruct Hcases as [[_ Hsplits] | [Hnz _]];
        [| contradiction].
      rewrite Hsplits in Hs.
      pose proof (Forall_lookup_1 _ _ _ _
                    (even_shares (1 / inject_Z (len (SplitView.Kids g))) zeroed)
                    Hs) as H.
      cbn in H. exact H.
Qed.

(** Index 7 of three children is an error and changes nothing, index 1 shows
    child "b"; collapsing pane 5 of two is the call without an index,
    collapsing pane 0 leaves its split at 0. *)
Lemma index_requests_witness :
  (exists e, ShowChildAtIndex stackOfThree 7 = (stackOfThree, Some e)) /\
  ShowChildAtIndex stackOfThree 1
  = (Layout.with_StackTop stackOfThree (Some (plainCell "b")), None) /\
  CollapseChild twoPanes false [5%Z] = CollapseChild twoPanes false [] /\
  exists g' s, CollapseChild twoPanes false [0%Z] = Some g' /\
               index (SplitView.Splits g') 0 = Some s /\ s == 0.
Proof.
  destruct (index_requests stackOfThree 7 twoPanes false 5)
    as (Herr & _ & Hskip & _).
  destruct (index_requests stackOfThree 1 twoPanes false 0)
    as (_ & Hshow & _ & Hzero).
  split; [apply Herr; vm_compute; intros [_ H]; discriminate |].
  split.
  { destruct Hshow as (c & Hc & Hshow);
      [vm_compute; split; [discriminate | reflexivity] |].
    vm_compute in Hc. injection Hc as <-. exact Hshow. }
  split; [apply Hskip; vm_compute; intros [_ H]; discriminate |].
  destruct Hzero as (g' & s & Hg & Hs & Hnz & _);
    [reflexivity | vm_compute; split; [discriminate | reflexivity] |].
  exists g', s. repeat split; try assumption.
  apply Hnz. vm_compute. discriminate.
Defined.

(** C8 as stated fails for CollapseChild.  A call with the index 5 on two
    panes ends as the call without an index does, with nothing reported; the
    index 0 of a single pane is in range, yet the split is 1 after the call,
    not 0; and the index 2 of three panes is in range, yet with two splits
    only the assignment to the split is an index out of range. *)
Lemma index_requests_counterexample :
  (exists g', CollapseChild twoPanes false [5%Z] = Some g' /\
              CollapseChild twoPanes false [] = Some g') /\
  ~ claimedCollapse onePane 0 /\
  (~ claimedCollapse shortSplits 2 /\
   CollapseChild shortSplits false [2%Z] = None).
Proof.
  split; [| split; [| split]].
  - eexists. split; vm_compute; reflexivity.
  - intros H. destruct H as (g' & s & Hg & Hs & Hz);
      [vm_compute; split; [discriminate | reflexivity] |].
    vm_compute in Hg. injection Hg as <-.
    vm_compute in Hs. injection Hs as <-.
    vm_compute in Hz. discriminate.
  - intros H. destruct H as (g' & s & Hg & _);
      [vm_compute; split; [discriminate | reflexivity] |].
    vm_compute in Hg. discriminate.
  - vm_compute. reflexivity.
Qed.

(** ** Overflow *)

(** ManageOverflow writes the flags, ExtraSize and the scroll bars only. *)
Lemma ManageOverflow_inputs (ly : Layout.t) :
  Layout.Kids (ManageOverflow ly) = Layout.Kids ly /\
  Layout.Style (ManageOverflow ly) = Layout.Style ly /\
  Layout.LayData (ManageOverflow ly) = Layout.LayData ly /\
  Layout.ChildSize (ManageOverflow ly) = Layout.ChildSize ly.
Proof.
  unfold ManageOverflow.
  destruct (len (Layout.Kids ly) =? 0)%Z; [easy |].
  destruct ly as [[ls spc fs] [sz mg gp gs [ax ay] ap apr apo] kids lay top
                    [cx cy] es hh hv hs vs gsz gr gc].
  cbn. destruct (Overflow_eqb _ _); cbn; [easy |].
  destruct (f_lt (ax - spc) cx); cbn;
    destruct (f_lt (ay - spc) cy); cbn; easy.
Qed.

(** The flags and ExtraSize that ManageOverflow leaves on a layout with
    children. *)
Lemma ManageOverflow_outputs (ly : Layout.t) :
  Layout.Kids ly <> [] ->
  let st := Style.Layout (Layout.Style ly) in
  let avail := SubVal (LayoutData.AllocSize (Layout.LayData ly))
                      (Style.BoxSpace (Layout.Style ly)) in
  let shown := negb (Overflow_eqb (LayoutStyle.Overflow st) OverflowHidden) in
  let h := shown && f_lt (Vec2D.X avail) (Vec2D.X (Layout.ChildSize ly)) in
  let v := shown && f_lt (Vec2D.Y avail) (Vec2D.Y (Layout.ChildSize ly)) in
  Layout.HasHScroll (ManageOverflow ly) = h /\
  Layout.HasVScroll (ManageOverflow ly) = v /\
  Layout.ExtraSize (ManageOverflow ly)
  = Vec2D.New (if v then 0 + LayoutStyle.ScrollBarWidth st else 0)
              (if h then 0 + LayoutStyle.ScrollBarWidth st else 0).
Proof.
  intros Hkids st avail shown h v. subst h v shown avail st.
  unfold ManageOverflow. rewrite (len_0_cons _ Hkids). clear Hkids.
  destruct ly as [[ls spc fs] [sz mg gp gs [ax ay] ap apr apo] kids lay top
                    [cx cy] es hh hv hs vs gsz gr gc].
  cbn. destruct (Overflow_eqb _ _); cbn; [easy |].
  destruct (f_lt (ax - spc) cx); cbn;
    destruct (f_lt (ay - spc) cy); cbn; easy.
Qed.

(** C10. ManageOverflow returns a layout without children as it is, with
    HasHScroll, HasVScroll and ExtraSize untouched.  On a layout with
    children the three are set from ChildSize, the allocated size and the
    style alone (box spacing, overflow policy, scroll bar width), whatever
    they were before; and a second call leaves them as the first did. *)
Theorem ManageOverflow_flags (ly : Layout.t) :
  let st := Style.Layout (Layout.Style ly) in
  let avail := SubVal (LayoutData.AllocSize (Layout.LayData ly))
                      (Style.BoxSpace (Layout.Style ly)) in
  let shown := negb (Overflow_eqb (LayoutStyle.Overflow st) OverflowHidden) in
  let h := shown && f_lt (Vec2D.X avail) (Vec2D.X (Layout.ChildSize ly)) in
  let v := shown && f_lt (Vec2D.Y avail) (Vec2D.Y (Layout.ChildSize ly)) in
  (Layout.Kids ly = [] -> ManageOverflow ly = ly) /\
  (Layout.Kids ly <> [] ->
   Layout.HasHScroll (ManageOverflow ly) = h /\
   Layout.HasVScroll (ManageOverflow ly) = v /\
   Layout.ExtraSize (ManageOverflow ly)
   = Vec2D.New (if v then 0 + LayoutStyle.ScrollBarWidth st else 0)
               (if h then 0 + LayoutStyle.ScrollBarWidth st else 0)) /\
  (Layout.HasHScroll (ManageOverflow (ManageOverflow ly))
   = Layout.HasHScroll (ManageOverflow ly) /\
   Layout.HasVScroll (ManageOverflow (ManageOverflow ly))
   = Layout.HasVScroll (ManageOverflow ly) /\
   Layout.ExtraSize (ManageOverflow (ManageOverflow ly))
   = Layout.ExtraSize (ManageOverflow ly)).
Proof.
  intros st avail shown h v.
  assert (Hnil : Layout.Kids ly = [] -> ManageOverflow ly = ly).
  { intros E. unfold ManageOverflow. now rewrite E. }
  split; [exact Hnil |]. split; [apply ManageOverflow_outputs |].
  destruct (Layout.Kids ly) as [| c kids] eqn:E.
  - now rewrite !(Hnil eq_refl).
  - assert (Hkids : Layout.Kids ly <> []) by (rewrite E; discriminate).
    destruct (ManageOverflow_inputs ly) as (Hk & Hs & Hl & Hc).
    assert (Hkids' : Layout.Kids (ManageOverflow ly) <> []) by now rewrite Hk.
    destruct (ManageOverflow_outputs ly Hkids) as (H1 & H2 & H3).
    destruct (ManageOverflow_outputs (ManageOverflow ly) Hkids')
      as (H1' & H2' & H3').
    rewrite Hs, Hl, Hc in H1', H2', H3'.
    rewrite H1, H2, H3, H1', H2', H3'. easy.
Qed.

(** A layout that overflows along X only: with a child, the stale flags and
    ExtraSize (16, 16) are replaced by a horizontal scroll bar and (0, 16);
    without children they stay. *)
Lemma ManageOverflow_flags_witness :
  ManageOverflow (overflowingRow []) = overflowingRow [] /\
  Layout.HasHScroll (ManageOverflow (overflowingRow [plainCell "a"])) = true /\
  Layout.HasVScroll (ManageOverflow (overflowingRow [plainCell "a"])) = false /\
  Layout.ExtraSize (ManageOverflow (overflowingRow [plainCell "a"]))
  = Vec2D.New 0 (0 + 16).
Proof.
  destruct (ManageOverflow_flags (overflowingRow [])) as (Hnil & _ & _).
  destruct (ManageOverflow_flags (overflowingRow [plainCell "a"]))
    as (_ & Hkids & _).
  split; [apply Hnil; reflexivity |].
  destruct Hkids as (H1 & H2 & H3); [discriminate |].
  rewrite H1, H2, H3. repeat split.
Defined.
